(** * PDF_Compress.py: the batch compression runner

    A shallow embedding of [src/PDF_Compress.py].  The script discovers the
    [*.pdf] entries of an input directory, re-saves each one through
    PyMuPDF inside a thread pool, tallies the per-file results and logs a
    summary.

    Modelling choices.
    - Python numbers: counters are [nat], CLI integers are [Z]; the sizes and
      ratios, which are Python floats, are exact rationals [Q].  A size is
      [bytes / (1024 * 1024)], a dyadic rational, so sizes and their sums are
      held exactly by a binary64 float for all byte counts below 2^53; the
      rounding of the ratio is not modelled.
    - Effects: a state-and-exception monad [M] over a [World] holding the file
      system, the log and the trace of calls made to PyMuPDF.
    - PyMuPDF is an opaque collaborator: a record [Fitz] of arbitrary
      functions, each of which may raise.
    - The thread pool: tasks are run atomically, in submission order; the
      order in which their futures complete is chosen by a scheduler, a list
      of natural numbers ([as_completed]). *)

From Stdlib Require Import QArith Lqa.
From stdpp Require Import base gmap list strings.

Local Open Scope string_scope.

(** ** Python exceptions and outcomes *)

Inductive ExcKind :=
  | ZeroDivisionError
  | NameError
  | FileNotFoundError
  | FileExistsError
  | NotADirectoryError
  | ValueError
  | RuntimeError.

(** Every exception of the model is an instance of Python's [Exception]; [str]
    of it is its message. *)
Record PyExc := mkExc { exc_kind : ExcKind; exc_msg : string }.

Definition str (e : PyExc) : string := exc_msg e.

Inductive outcome (A : Type) :=
  | Ok (a : A)
  | Raise (e : PyExc).
Arguments Ok {A} a.
Arguments Raise {A} e.

(** ** Paths and the file system *)

(** A [pathlib.Path] as the list of its parts. *)
Abbreviation Path := (list string).

(** [p.name]: the final component. *)
Definition name (p : Path) : string := List.last p "".

(** [p.parent]. *)
Definition parent (p : Path) : Path := removelast p.

(** [d / n]. *)
Definition joinpath (d : Path) (n : string) : Path := d ++ [n].

(** What [os.stat] tells about an entry. *)
Record Stat := mkStat { is_dir : bool; st_size : N }.

Abbreviation FS := (gmap Path Stat).

(** [fnmatch] of a name against the pattern [*.pdf]. *)
Definition matches_pdf (n : string) : bool :=
  let len := String.length n in
  (4 <=? len)%nat && String.eqb (String.substring (len - 4) 4 n) ".pdf".

(** The entries [p] of the directory [dir]: [p = dir / p.name]. *)
Definition is_child (dir p : Path) : bool :=
  bool_decide (p = joinpath dir (name p)).

(** [list(dir.glob("*.pdf"))]; the listing order is the map's. *)
Definition glob_pdf (dir : Path) (m : FS) : list Path :=
  List.filter (fun p => is_child dir p && matches_pdf (name p))
              (map fst (map_to_list m)).

(** ** Logging *)

Inductive Level := INFO | WARNING | ERROR.

(** One constructor per message of the script; the values that the f-strings
    format are kept as they are. *)
Inductive Message :=
  | MsgPyMuPDFRequired
  | MsgInstallPyMuPDF
  | MsgPillowRequired
  | MsgInstallPillow
  | MsgNoPdfFound (input_dir : Path)
  | MsgFound (n : nat)
  | MsgImageQuality (q : Z)
  | MsgTargetDpi (d : Z)
  | MsgErrorCompressing (input_path : Path) (err : string)
  | MsgCompressed (file_name : string) (original compressed ratio : Q)
  | MsgFailed (file_name : string) (err : option string)
  | MsgRule
  | MsgSummaryTitle
  | MsgTotalProcessed (n : nat)
  | MsgSuccessful (n : nat)
  | MsgFailedCount (n : nat)
  | MsgTotalOriginal (mb : Q)
  | MsgTotalCompressed (mb : Q)
  | MsgOverallReduction (pct : Q)
  | MsgSpaceSaved (mb : Q).

Abbreviation LogRecord := (Level * Message)%type.

(** ** PyMuPDF *)

(** The keyword arguments of [doc.save]. *)
Record SaveOptions := mkSaveOptions {
  garbage : Z;
  deflate : bool;
  clean : bool;
  pretty : bool
}.

(** The calls the script makes to the library, with their arguments. *)
Inductive FitzCall :=
  | CallOpen (filename : Path)
  | CallSave (filename : Path) (opts : SaveOptions)
  | CallClose.

(** The library itself: any behaviour.  [doc_save] may change the file system
    also when it raises. *)
Record Fitz := mkFitz {
  Doc : Type;
  fitz_open : Path -> FS -> outcome Doc;
  doc_save : Doc -> Path -> SaveOptions -> FS -> FS * outcome unit;
  doc_close : Doc -> outcome unit
}.

(** The module-level state after the imports. *)
Record Modules := mkModules {
  PYMUPDF_AVAILABLE : bool;
  PIL_AVAILABLE : bool;
  fitz : Fitz
}.

(** ** The world and the monad *)

Record World := mkWorld {
  fs : FS;
  log : list LogRecord;
  calls : list FitzCall
}.

Definition M (A : Type) : Type := World -> World * outcome A.

Definition ret {A} (a : A) : M A := fun w => (w, Ok a).

Definition raise {A} (e : PyExc) : M A := fun w => (w, Raise e).

Definition bind {A B} (m : M A) (k : A -> M B) : M B :=
  fun w =>
    match m w with
    | (w', Ok a) => k a w'
    | (w', Raise e) => (w', Raise e)
    end.

(** [try: body except Exception as e: handler e]. *)
Definition try_except {A} (body : M A) (handler : PyExc -> M A) : M A :=
  fun w =>
    match body w with
    | (w', Ok a) => (w', Ok a)
    | (w', Raise e) => handler e w'
    end.

Declare Scope py_scope.
Delimit Scope py_scope with py.
Notation "x <- m ;; k" := (bind m (fun x => k))
  (at level 100, m at next level, right associativity) : py_scope.
Notation "m ;; k" := (bind m (fun _ => k))
  (at level 100, right associativity) : py_scope.

Definition lift {A} (o : outcome A) : M A := fun w => (w, o).

Definition logger (lvl : Level) (msg : Message) : M unit :=
  fun w => (mkWorld (fs w) (log w ++ [(lvl, msg)]) (calls w), Ok tt).

Definition record_call (c : FitzCall) : M unit :=
  fun w => (mkWorld (fs w) (log w) (calls w ++ [c]), Ok tt).

(** ** Python arithmetic *)

(** [x / y] on floats. *)
Definition truediv (x y : Q) : outcome Q :=
  if Qeq_bool y 0 then Raise (mkExc ZeroDivisionError "float division by zero")
  else Ok (x / y)%Q.

(** [x > y]. *)
Definition Qgtb (x y : Q) : bool := negb (Qle_bool x y).

(** ** File-system calls *)

(** [p.exists()]. *)
Definition path_exists (p : Path) : M bool :=
  fun w => (w, Ok (bool_decide (is_Some (fs w !! p)))).

(** [os.path.getsize(p)]: [OSError] when there is no such entry. *)
Definition getsize (p : Path) : M N :=
  fun w =>
    match fs w !! p with
    | Some st => (w, Ok (st_size st))
    | None => (w, Raise (mkExc FileNotFoundError "No such file or directory"))
    end.

(** [p.mkdir(exist_ok=True)]: nothing to do for an existing directory (the
    current directory, [[]], always is one); an error when [p] is a file or
    when its parent is not a directory. *)
Definition mkdir_exist_ok (p : Path) : M unit :=
  fun w =>
    match p, fs w !! p with
    | [], _ => (w, Ok tt)
    | _, Some st =>
        if is_dir st then (w, Ok tt)
        else (w, Raise (mkExc FileExistsError "File exists"))
    | _, None =>
        let made := mkWorld (<[p := mkStat true 0]> (fs w)) (log w) (calls w) in
        match parent p, fs w !! parent p with
        | [], _ => (made, Ok tt)
        | _, Some st =>
            if is_dir st then (made, Ok tt)
            else (w, Raise (mkExc NotADirectoryError "Not a directory"))
        | _, None => (w, Raise (mkExc FileNotFoundError "No such file or directory"))
        end
    end.

(** ** The script *)

Record CompressionResult := mkResult {
  success : bool;
  original_size : Q;
  compressed_size : Q;
  compression_ratio : Q;
  error : option string
}.

Record PDFCompressorPython := mkCompressor {
  input_dir : Path;
  output_dir : Path;
  image_quality : Z;
  image_dpi : Z
}.

(** What [doc.save] is called with, lines 92-96. *)
Definition save_options : SaveOptions :=
  {| garbage := 4; deflate := true; clean := true; pretty := false |}.

Local Open Scope py_scope.

Section Script.

Variable env : Modules.

(** The three calls into the library.  The name [fitz] is bound only when the
    import at line 56 succeeded. *)
Definition fitz_open_call (p : Path) : M (Doc (fitz env)) :=
  if PYMUPDF_AVAILABLE env then
    record_call (CallOpen p) ;;
    fun w => (w, fitz_open (fitz env) p (fs w))
  else raise (mkExc NameError "name 'fitz' is not defined").

Definition doc_save_call (doc : Doc (fitz env)) (p : Path) (o : SaveOptions) : M unit :=
  record_call (CallSave p o) ;;
  fun w =>
    let (fs', r) := doc_save (fitz env) doc p o (fs w) in
    (mkWorld fs' (log w) (calls w), r).

Definition doc_close_call (doc : Doc (fitz env)) : M unit :=
  record_call CallClose ;;
  lift (doc_close (fitz env) doc).

(** [__init__], lines 70-78. *)
Definition init (input_dir output_dir : Path) (image_quality image_dpi : Z)
  : M PDFCompressorPython :=
  let self := mkCompressor input_dir output_dir image_quality image_dpi in
  mkdir_exist_ok output_dir ;;
  ret self.

(** [get_file_size], lines 80-82. *)
Definition get_file_size (filepath : Path) : M Q :=
  n <- getsize filepath ;;
  ret (inject_Z (Z.of_N n) / (1024 * 1024))%Q.

(** The delegated compression call, lines 88-98. *)
Definition delegated_call (input_path output_path : Path) : M unit :=
  doc <- fitz_open_call input_path ;;
  doc_save_call doc output_path save_options ;;
  doc_close_call doc.

(** [compress_pdf_pymupdf], lines 84-121. *)
Definition compress_pdf_pymupdf (self : PDFCompressorPython)
    (input_path output_path : Path) : M CompressionResult :=
  try_except
    (delegated_call input_path output_path ;;
     original_size <- get_file_size input_path ;;
     compressed_size <- get_file_size output_path ;;
     q <- lift (truediv compressed_size original_size) ;;
     let compression_ratio := ((1 - q) * 100)%Q in
     ret {| success := true;
            original_size := original_size;
            compressed_size := compressed_size;
            compression_ratio := compression_ratio;
            error := None |})
    (fun e =>
       logger ERROR (MsgErrorCompressing input_path (str e)) ;;
       ex <- path_exists input_path ;;
       original_size <- (if ex then get_file_size input_path else ret 0%Q) ;;
       ret {| success := false;
              original_size := original_size;
              compressed_size := 0;
              compression_ratio := 0;
              error := Some (str e) |}).

(** *** The thread pool *)

(** A [Future] holds what its task returned or raised. *)
Definition Future : Type := outcome CompressionResult.

(** [ThreadPoolExecutor(max_workers=n)]. *)
Definition ThreadPoolExecutor (max_workers : Z) : M unit :=
  if (max_workers <=? 0)%Z then
    raise (mkExc ValueError "max_workers must be greater than 0")
  else ret tt.

(** [executor.submit(task)]: the task runs, and whatever it raises is kept in
    the future. *)
Definition submit (task : M CompressionResult) : M Future :=
  fun w => let (w', r) := task w in (w', Ok r).

(** [future.result()]. *)
Definition future_result (future : Future) : M CompressionResult := lift future.

(** The next future to complete is any of the pending ones: the scheduler's
    next number picks it, and submission order is the choice when the
    scheduler has run out of numbers. *)
Fixpoint complete_order {A} (n : nat) (sched : list nat) (pending : list A) : list A :=
  match n with
  | O => []
  | S n' =>
      let i := (hd 0 sched mod length pending)%nat in
      match pending !! i with
      | Some x => x :: complete_order n' (tl sched) (delete i pending)
      | None => []
      end
  end.

Definition as_completed {A} (sched : list nat) (futures : list A) : list A :=
  complete_order (length futures) sched futures.

(** [for x in xs: state = body state x]. *)
Fixpoint for_loop {A S} (xs : list A) (body : S -> A -> M S) (s : S) : M S :=
  match xs with
  | [] => ret s
  | x :: xs' => s' <- body s x ;; for_loop xs' body s'
  end.

(** *** compress_all *)

(** The local variables of lines 146-149, and the history of the results the
    collecting loop has handled. *)
Record Tally := mkTally {
  total_original_size : Q;
  total_compressed_size : Q;
  successful_compressions : nat;
  failed_compressions : nat;
  observed : list (Path * CompressionResult)
}.

Definition tally0 : Tally := mkTally 0 0 0 0 [].

(** The values of the summary block, lines 184-189. *)
Record RunSummary := mkSummary {
  files_processed : nat;
  successes : nat;
  failures : nat;
  total_original : Q;
  total_compressed : Q;
  overall_compression : Q
}.

(** [compress_all] returns [None] on each path; the model's result names the
    [return] that was taken. *)
Inductive RunExit :=
  | NoPyMuPDF
  | NoPillow
  | NoFiles
  | Completed (summary : RunSummary) (seen : list (Path * CompressionResult)).

(** Lines 155-158. *)
Definition submit_file (self : PDFCompressorPython)
    (future_to_file : list (Future * Path)) (pdf_file : Path)
  : M (list (Future * Path)) :=
  let output_file := joinpath (output_dir self) (name pdf_file) in
  future <- submit (compress_pdf_pymupdf self pdf_file output_file) ;;
  ret (future_to_file ++ [(future, pdf_file)])%list.

(** Lines 162-176. *)
Definition collect (t : Tally) (item : Future * Path) : M Tally :=
  let (future, pdf_file) := item in
  result <- future_result future ;;
  if success result then
    let t' := {| successful_compressions := successful_compressions t + 1;
                 total_original_size := total_original_size t + original_size result;
                 total_compressed_size := total_compressed_size t + compressed_size result;
                 failed_compressions := failed_compressions t;
                 observed := (observed t ++ [(pdf_file, result)])%list |} in
    logger INFO (MsgCompressed (name pdf_file) (original_size result)
                   (compressed_size result) (compression_ratio result)) ;;
    ret t'
  else
    let t' := {| successful_compressions := successful_compressions t;
                 total_original_size := total_original_size t;
                 total_compressed_size := total_compressed_size t;
                 failed_compressions := failed_compressions t + 1;
                 observed := (observed t ++ [(pdf_file, result)])%list |} in
    logger ERROR (MsgFailed (name pdf_file) (error result)) ;;
    ret t'.

(** Line 179. *)
Definition overall (total_compressed_size total_original_size : Q) : outcome Q :=
  if Qgtb total_original_size 0 then
    match truediv total_compressed_size total_original_size with
    | Ok q => Ok ((1 - q) * 100)%Q
    | Raise e => Raise e
    end
  else Ok 0%Q.

(** Lines 123-191. *)
Definition compress_all (self : PDFCompressorPython) (max_workers : Z)
    (sched : list nat) : M RunExit :=
  if negb (PYMUPDF_AVAILABLE env) then
    logger ERROR MsgPyMuPDFRequired ;;
    logger ERROR MsgInstallPyMuPDF ;;
    ret NoPyMuPDF
  else if negb (PIL_AVAILABLE env) then
    logger ERROR MsgPillowRequired ;;
    logger ERROR MsgInstallPillow ;;
    ret NoPillow
  else
    pdf_files <- (fun w => (w, Ok (glob_pdf (input_dir self) (fs w)))) ;;
    match pdf_files with
    | [] =>
        logger ERROR (MsgNoPdfFound (input_dir self)) ;;
        ret NoFiles
    | _ :: _ =>
        logger INFO (MsgFound (length pdf_files)) ;;
        logger INFO (MsgImageQuality (image_quality self)) ;;
        logger INFO (MsgTargetDpi (image_dpi self)) ;;
        ThreadPoolExecutor max_workers ;;
        future_to_file <- for_loop pdf_files (submit_file self) [] ;;
        t <- for_loop (as_completed sched future_to_file) collect tally0 ;;
        overall_compression <-
          lift (overall (total_compressed_size t) (total_original_size t)) ;;
        logger INFO MsgRule ;;
        logger INFO MsgSummaryTitle ;;
        logger INFO MsgRule ;;
        logger INFO (MsgTotalProcessed (length pdf_files)) ;;
        logger INFO (MsgSuccessful (successful_compressions t)) ;;
        logger INFO (MsgFailedCount (failed_compressions t)) ;;
        logger INFO (MsgTotalOriginal (total_original_size t)) ;;
        logger INFO (MsgTotalCompressed (total_compressed_size t)) ;;
        logger INFO (MsgOverallReduction overall_compression) ;;
        logger INFO (MsgSpaceSaved (total_original_size t - total_compressed_size t)) ;;
        logger INFO MsgRule ;;
        ret (Completed
               {| files_processed := length pdf_files;
                  successes := successful_compressions t;
                  failures := failed_compressions t;
                  total_original := total_original_size t;
                  total_compressed := total_compressed_size t;
                  overall_compression := overall_compression |}
               (observed t))
    end.

(** *** main *)

(** The parsed command line, lines 194-206. *)
Record Args := mkArgs {
  arg_input_dir : Path;
  arg_output_dir : Path;
  arg_image_quality : Z;
  arg_image_dpi : Z;
  arg_workers : Z
}.

(** Lines 208-215. *)
Definition main (args : Args) (sched : list nat) : M unit :=
  compressor <- init (arg_input_dir args) (arg_output_dir args)
                     (arg_image_quality args) (arg_image_dpi args) ;;
  compress_all compressor (arg_workers args) sched ;;
  ret tt.

End Script.

(** The status the interpreter exits with: 0 when the script runs to its end,
    1 when an exception reaches the top level. *)
Definition exit_status {A} (r : World * outcome A) : Z :=
  match snd r with
  | Ok _ => 0
  | Raise _ => 1
  end.

(** ** Definitions for the statements *)

(** The size in MB that [get_file_size] computes from a byte count. *)
Definition megabytes (n : N) : Q := (inject_Z (Z.of_N n) / (1024 * 1024))%Q.

(** The result the [except] branch builds, lines 115-121. *)
Definition failure_result (m : FS) (input_path : Path) (e : PyExc) : CompressionResult :=
  {| success := false;
     original_size := match m !! input_path with
                      | Some st => megabytes (st_size st)
                      | None => 0
                      end;
     compressed_size := 0;
     compression_ratio := 0;
     error := Some (str e) |}.

Definition logged (w : World) (r : LogRecord) : World :=
  mkWorld (fs w) (log w ++ [r]) (calls w).

(** One turn of the loop of lines 161-176, without its logging. *)
Definition tally_add (t : Tally) (x : Path * CompressionResult) : Tally :=
  if success (snd x) then
    {| successful_compressions := successful_compressions t + 1;
       total_original_size := total_original_size t + original_size (snd x);
       total_compressed_size := total_compressed_size t + compressed_size (snd x);
       failed_compressions := failed_compressions t;
       observed := (observed t ++ [x])%list |}
  else
    {| successful_compressions := successful_compressions t;
       total_original_size := total_original_size t;
       total_compressed_size := total_compressed_size t;
       failed_compressions := failed_compressions t + 1;
       observed := (observed t ++ [x])%list |}.

(** The future of a task that returned [x.2] for the file [x.1]. *)
Definition done_future (x : Path * CompressionResult) : Future * Path :=
  (Ok (snd x), fst x).

(** The numbers of a tally, without its history. *)
Definition counters (t : Tally) : Q * Q * nat * nat :=
  (total_original_size t, total_compressed_size t,
   successful_compressions t, failed_compressions t).

Definition Qsum (l : list Q) : Q := fold_left Qplus l 0%Q.

(** The value of line 179. *)
Definition overall_value (total_compressed_size total_original_size : Q) : Q :=
  if Qgtb total_original_size 0
  then ((1 - total_compressed_size / total_original_size) * 100)%Q
  else 0%Q.

(** The summary that is logged for a tally. *)
Definition summarize (n : nat) (t : Tally) : RunSummary :=
  {| files_processed := n;
     successes := successful_compressions t;
     failures := failed_compressions t;
     total_original := total_original_size t;
     total_compressed := total_compressed_size t;
     overall_compression :=
       overall_value (total_compressed_size t) (total_original_size t) |}.

(** The tasks of the files, run one after the other from a world, each one
    giving the result of its worker. *)
Inductive tasks_run (env : Modules) (self : PDFCompressorPython) : World -> list Path -> list (Path * CompressionResult) -> World -> Prop :=
  | tasks_run_nil w : tasks_run env self w [] [] w
  | tasks_run_cons w w1 w2 p r ps xs :
      compress_pdf_pymupdf env self p (joinpath (output_dir self) (name p)) w = (w1, Ok r) ->
      tasks_run env self w1 ps xs w2 ->
      tasks_run env self w (p :: ps) ((p, r) :: xs) w2.

(** The world when the pool starts: the three lines of 142-144 are logged. *)
Definition announced (self : PDFCompressorPython) (w : World) : World :=
  logged (logged (logged w
    (INFO, MsgFound (length (glob_pdf (input_dir self) (fs w)))))
    (INFO, MsgImageQuality (image_quality self)))
    (INFO, MsgTargetDpi (image_dpi self)).

(** The summary of a run, when it has one. *)
Definition summary_of (r : World * outcome RunExit) : option RunSummary :=
  match snd r with
  | Ok (Completed s _) => Some s
  | _ => None
  end.

(** How the run ended, without the order in which the results were handled. *)
Definition ending (r : World * outcome RunExit) : outcome RunExit :=
  match snd r with
  | Ok (Completed s _) => Ok (Completed s [])
  | o => o
  end.

(** ** A library and a directory to run the script on *)

Module Sample.

(** A library that refuses missing files and files under 100 bytes, and
    otherwise writes an output of half the input's size when asked to deflate. *)
Definition halving : Fitz :=
  {| Doc := N;
     fitz_open := fun p m =>
       match m !! p with
       | Some st =>
           if (st_size st <? 100)%N
           then Raise (mkExc RuntimeError "cannot open broken document")
           else Ok (st_size st)
       | None => Raise (mkExc FileNotFoundError "no such file")
       end;
     doc_save := fun d p o m =>
       (<[p := mkStat false (if deflate o then d / 2 else d)%N]> m, Ok tt);
     doc_close := fun _ => Ok tt |}.

Definition modules : Modules := mkModules true true halving.
Definition without_pymupdf : Modules := mkModules false true halving.
Definition without_pillow : Modules := mkModules true false halving.

(** [papers/] holds a 2 MB document, a broken one of 64 bytes and a text
    file. *)
Definition papers : FS :=
  <[ ["papers"; "a.pdf"] := mkStat false 2097152 ]>
  (<[ ["papers"; "b.pdf"] := mkStat false 64 ]>
  (<[ ["papers"; "c.txt"] := mkStat false 5 ]>
  (<[ ["papers"] := mkStat true 0 ]> ∅))).

Definition no_papers : FS :=
  <[ ["papers"; "c.txt"] := mkStat false 5 ]>
  (<[ ["papers"] := mkStat true 0 ]> ∅).

(** A directory whose only document is broken. *)
Definition broken_only : FS :=
  <[ ["papers"; "b.pdf"] := mkStat false 64 ]>
  (<[ ["papers"] := mkStat true 0 ]> ∅).

Definition start : World := mkWorld papers [] [].
Definition start_broken : World := mkWorld broken_only [] [].
Definition start_empty : World := mkWorld no_papers [] [].

Definition self : PDFCompressorPython := mkCompressor ["papers"] ["out"] 50 150.
Definition args : Args := mkArgs ["papers"] ["out"] 50 150 2.

End Sample.

(** ** Further definitions for the statements *)

(** The line the collecting loop logs for a result, lines 170-176. *)
Definition result_line (x : Path * CompressionResult) : LogRecord :=
  if success (snd x) then
    (INFO, MsgCompressed (name (fst x)) (original_size (snd x))
             (compressed_size (snd x)) (compression_ratio (snd x)))
  else (ERROR, MsgFailed (name (fst x)) (error (snd x))).

(** The summary block, lines 181-191. *)
Definition summary_block (s : RunSummary) : list LogRecord :=
  [(INFO, MsgRule);
   (INFO, MsgSummaryTitle);
   (INFO, MsgRule);
   (INFO, MsgTotalProcessed (files_processed s));
   (INFO, MsgSuccessful (successes s));
   (INFO, MsgFailedCount (failures s));
   (INFO, MsgTotalOriginal (total_original s));
   (INFO, MsgTotalCompressed (total_compressed s));
   (INFO, MsgOverallReduction (overall_compression s));
   (INFO, MsgSpaceSaved (total_original s - total_compressed s)%Q);
   (INFO, MsgRule)].

(** The lines of 142-144. *)
Definition opening_lines (self : PDFCompressorPython) (n : nat) : list LogRecord :=
  [(INFO, MsgFound n);
   (INFO, MsgImageQuality (image_quality self));
   (INFO, MsgTargetDpi (image_dpi self))].

(** The records that [compress_all] logs itself; the only line a worker
    logs is that of line 114. *)
Definition from_compress_all (r : LogRecord) : bool :=
  match snd r with
  | MsgErrorCompressing _ _ => false
  | _ => true
  end.

(** The calls of one task that goes through, lines 88-98. *)
Definition task_calls (input_path output_path : Path) : list FitzCall :=
  [CallOpen input_path; CallSave output_path save_options; CallClose].


(** A library whose [doc.save] writes no entry but the one it is given. *)
Definition writes_only_target (lib : Fitz) : Prop :=
  forall (d : Doc lib) (p : Path) (o : SaveOptions) (m : FS) (q : Path),
    q <> p -> fst (doc_save lib d p o m) !! q = m !! q.

(** The path a file of the listing is saved to, line 156. *)
Definition output_file (self : PDFCompressorPython) (pdf_file : Path) : Path :=
  joinpath (output_dir self) (name pdf_file).

Module Cases.

(** A library that opens whatever exists and saves a copy of the same size. *)
Definition copying : Fitz :=
  {| Doc := N;
     fitz_open := fun p m =>
       match m !! p with
       | Some st => Ok (st_size st)
       | None => Raise (mkExc FileNotFoundError "no such file")
       end;
     doc_save := fun d p o m => (<[p := mkStat false d]> m, Ok tt);
     doc_close := fun _ => Ok tt |}.

(** A library whose [doc.save] always fails, leaving nothing behind. *)
Definition read_only : Fitz :=
  {| Doc := N;
     fitz_open := fun p m =>
       match m !! p with
       | Some st => Ok (st_size st)
       | None => Raise (mkExc FileNotFoundError "no such file")
       end;
     doc_save := fun d p o m => (m, Raise (mkExc RuntimeError "cannot write"));
     doc_close := fun _ => Ok tt |}.

Definition modules_copying : Modules := mkModules true true copying.
Definition modules_read_only : Modules := mkModules true true read_only.

(** [papers/] with an empty document beside a 2 MB one. *)
Definition with_empty : FS :=
  <[ ["papers"; "e.pdf"] := mkStat false 0 ]>
  (<[ ["papers"; "a.pdf"] := mkStat false 2097152 ]>
  (<[ ["papers"] := mkStat true 0 ]> ∅)).

(** The output directory's name is taken by a file. *)
Definition out_is_a_file : FS :=
  <[ ["out"] := mkStat false 7 ]> Sample.papers.

Definition start_with_empty : World := mkWorld with_empty [] [].
Definition start_out_is_a_file : World := mkWorld out_is_a_file [] [].

End Cases.

(** * Properties *)

(** ** Rational arithmetic, up to Leibniz equality *)

Lemma Qplus_comm_eq (x y : Q) : (x + y)%Q = (y + x)%Q.
Proof.
  destruct x as [a b], y as [c d]. unfold Qplus. simpl.
  f_equal; [apply Z.add_comm | apply Pos.mul_comm].
Qed.

Lemma Qplus_assoc_eq (x y z : Q) : (x + y + z)%Q = (x + (y + z))%Q.
Proof.
  destruct x as [a b], y as [c d], z as [e f]. unfold Qplus. simpl.
  f_equal.
  - rewrite !Pos2Z.inj_mul. ring.
  - symmetry. apply Pos.mul_assoc.
Qed.

Lemma Qplus_swap_eq (x y z : Q) : (x + y + z)%Q = (x + z + y)%Q.
Proof.
  rewrite !Qplus_assoc_eq. f_equal. apply Qplus_comm_eq.
Qed.

Lemma Qgtb_true (x y : Q) : Qgtb x y = true <-> (y < x)%Q.
Proof.
  unfold Qgtb. rewrite negb_true_iff. split.
  - intros H. apply Qnot_le_lt. intros Hle.
    apply Qle_bool_iff in Hle. congruence.
  - intros H. destruct (Qle_bool x y) eqn:E; [|reflexivity].
    apply Qle_bool_iff in E. exfalso. apply (Qlt_not_le _ _ H E).
Qed.

Lemma Qgtb_false (x y : Q) : Qgtb x y = false <-> (x <= y)%Q.
Proof.
  unfold Qgtb. rewrite negb_false_iff. apply Qle_bool_iff.
Qed.

Lemma truediv_nonzero (x y : Q) : ~ (y == 0)%Q -> truediv x y = Ok (x / y)%Q.
Proof.
  intros H. unfold truediv. destruct (Qeq_bool y 0) eqn:E; [|reflexivity].
  apply Qeq_bool_iff in E. contradiction.
Qed.

Lemma truediv_zero (x y : Q) :
  (y == 0)%Q -> exists e, truediv x y = Raise e /\ exc_kind e = ZeroDivisionError.
Proof.
  intros H. unfold truediv. apply Qeq_bool_iff in H. rewrite H. eauto.
Qed.

(** ** The completion order *)

Lemma complete_order_perm {A} (n : nat) (sched : list nat) (pending : list A) :
  length pending = n -> complete_order n sched pending ≡ₚ pending.
Proof.
  revert sched pending. induction n as [|n IH]; intros sched pending Hlen.
  - destruct pending; [reflexivity | discriminate].
  - simpl.
    assert (Hlt : (hd 0 sched mod length pending < length pending)%nat)
      by (apply Nat.mod_upper_bound; lia).
    destruct (lookup_lt_is_Some_2 _ _ Hlt) as [x Hx]. rewrite Hx.
    etrans; [|symmetry; apply (delete_Permutation pending _ x Hx)].
    constructor. apply IH. rewrite length_delete by eauto. lia.
Qed.

Lemma as_completed_perm {A} (sched : list nat) (futures : list A) :
  as_completed sched futures ≡ₚ futures.
Proof. apply complete_order_perm. reflexivity. Qed.

(** With no scheduler choices the futures complete in submission order: the
    strictly sequential run. *)
Lemma complete_order_nil {A} (n : nat) (pending : list A) :
  length pending = n -> complete_order n [] pending = pending.
Proof.
  revert pending. induction n as [|n IH]; intros pending Hlen.
  - destruct pending; [reflexivity | discriminate].
  - destruct pending as [|x rest]; [discriminate|].
    simpl. rewrite Nat.sub_diag. simpl. f_equal. apply IH.
    simpl in Hlen. lia.
Qed.

Lemma as_completed_sequential {A} (futures : list A) :
  as_completed [] futures = futures.
Proof. apply complete_order_nil. reflexivity. Qed.

(** Every order of completion is some scheduler's. *)
Lemma complete_order_any {A} (done pending : list A) :
  done ≡ₚ pending ->
  exists sched, complete_order (length pending) sched pending = done.
Proof.
  revert pending. induction done as [|x done IH]; intros pending Hp.
  - apply Permutation_nil_l in Hp. subst. exists []. reflexivity.
  - assert (Hin : x ∈ pending) by (rewrite <- Hp; left).
    apply list_elem_of_lookup in Hin as [i Hi].
    assert (Hrest : done ≡ₚ delete i pending).
    { apply (Permutation_cons_inv (a := x)).
      rewrite Hp. apply delete_Permutation. exact Hi. }
    destruct (IH _ Hrest) as [sched Hs].
    pose proof (lookup_lt_Some _ _ _ Hi) as Hlt.
    exists (i :: sched).
    destruct (length pending) as [|n] eqn:Hlen; [lia|].
    simpl. rewrite Nat.mod_small by lia. rewrite Hi. f_equal.
    rewrite <- Hs. f_equal. rewrite length_delete by eauto. lia.
Qed.

Lemma as_completed_any {A} (done futures : list A) :
  done ≡ₚ futures -> exists sched, as_completed sched futures = done.
Proof. apply complete_order_any. Qed.

Lemma complete_order_map {A B} (f : A -> B) (n : nat) (sched : list nat) (l : list A) :
  complete_order n sched (map f l) = map f (complete_order n sched l).
Proof.
  revert sched l. induction n as [|n IH]; intros sched l; [reflexivity|].
  simpl. rewrite length_map, list_lookup_fmap.
  destruct (l !! _) as [x|] eqn:E; [|reflexivity].
  simpl. f_equal. rewrite <- IH. f_equal.
  clear. generalize (hd 0 sched mod length l)%nat. intros i.
  revert i. induction l as [|a l IHl]; intros [|i]; simpl; try reflexivity.
  f_equal. apply IHl.
Qed.

Lemma as_completed_map {A B} (f : A -> B) (sched : list nat) (l : list A) :
  as_completed sched (map f l) = map f (as_completed sched l).
Proof. unfold as_completed. rewrite length_map. apply complete_order_map. Qed.

(** ** The worker *)

Section WorkerFacts.

Variable env : Modules.
Variable self : PDFCompressorPython.

Lemma get_file_size_some (p : Path) (w : World) (st : Stat) :
  fs w !! p = Some st -> get_file_size p w = (w, Ok (megabytes (st_size st))).
Proof.
  intros H. unfold get_file_size, bind, getsize, ret. rewrite H. reflexivity.
Qed.

Lemma get_file_size_none (p : Path) (w : World) :
  fs w !! p = None -> exists e, get_file_size p w = (w, Raise e).
Proof.
  intros H. unfold get_file_size, bind, getsize, ret. rewrite H. eauto.
Qed.

(** Whatever the [try] block raised, the handler returns a failed result. *)
Lemma worker_handles (input_path output_path : Path) (w w1 : World) (e : PyExc) :
  (delegated_call env input_path output_path ;;
   original_size <- get_file_size input_path ;;
   compressed_size <- get_file_size output_path ;;
   q <- lift (truediv compressed_size original_size) ;;
   ret (mkResult true original_size compressed_size ((1 - q) * 100)%Q None)) w
    = (w1, Raise e) ->
  compress_pdf_pymupdf env self input_path output_path w
    = (logged w1 (ERROR, MsgErrorCompressing input_path (str e)),
       Ok (failure_result (fs w1) input_path e)).
Proof.
  intros H. unfold compress_pdf_pymupdf, try_except. rewrite H.
  unfold bind, logger, path_exists, failure_result. simpl.
  destruct (fs w1 !! input_path) as [st|] eqn:E.
  - rewrite bool_decide_eq_true_2 by eauto.
    unfold logged. erewrite get_file_size_some by (simpl; eassumption).
    reflexivity.
  - rewrite bool_decide_eq_false_2 by (intros [? ?]; discriminate).
    reflexivity.
Qed.

Lemma worker_total (input_path output_path : Path) (w : World) :
  exists w' r, compress_pdf_pymupdf env self input_path output_path w = (w', Ok r).
Proof.
  destruct ((delegated_call env input_path output_path ;;
             original_size <- get_file_size input_path ;;
             compressed_size <- get_file_size output_path ;;
             q <- lift (truediv compressed_size original_size) ;;
             ret (mkResult true original_size compressed_size ((1 - q) * 100)%Q None)) w)
    as [w1 [r|e]] eqn:E.
  - exists w1, r. unfold compress_pdf_pymupdf, try_except. rewrite E. reflexivity.
  - eexists _, _. apply worker_handles. exact E.
Qed.

(** A failure of the delegated call is a failure of the [try] block. *)
Lemma worker_on_failure (input_path output_path : Path) (w w1 : World) (e : PyExc) :
  delegated_call env input_path output_path w = (w1, Raise e) ->
  compress_pdf_pymupdf env self input_path output_path w
    = (logged w1 (ERROR, MsgErrorCompressing input_path (str e)),
       Ok (failure_result (fs w1) input_path e)).
Proof.
  intros H. apply worker_handles. unfold bind at 1. rewrite H. reflexivity.
Qed.

(** The successful path, lines 100-111. *)
Lemma worker_on_success (input_path output_path : Path) (w w1 : World) (si so : Stat) :
  delegated_call env input_path output_path w = (w1, Ok tt) ->
  fs w1 !! input_path = Some si ->
  fs w1 !! output_path = Some so ->
  st_size si <> 0%N ->
  compress_pdf_pymupdf env self input_path output_path w
    = (w1, Ok {| success := true;
                 original_size := megabytes (st_size si);
                 compressed_size := megabytes (st_size so);
                 compression_ratio :=
                   ((1 - megabytes (st_size so) / megabytes (st_size si)) * 100)%Q;
                 error := None |}).
Proof.
  intros Hcall Hi Ho Hnz. unfold compress_pdf_pymupdf, try_except.
  unfold bind at 1. rewrite Hcall.
  unfold bind at 1. rewrite (get_file_size_some _ _ _ Hi).
  unfold bind at 1. rewrite (get_file_size_some _ _ _ Ho).
  unfold bind at 1, lift. rewrite truediv_nonzero; [reflexivity|].
  unfold megabytes, Qeq, Qdiv, Qmult, Qinv, inject_Z. simpl. lia.
Qed.

End WorkerFacts.

(** ** The collecting loop *)

Lemma collect_done (t : Tally) (x : Path * CompressionResult) (w : World) :
  exists w', collect t (done_future x) w = (w', Ok (tally_add t x))
             /\ fs w' = fs w /\ calls w' = calls w.
Proof.
  destruct x as [p r]. unfold collect, done_future, tally_add. simpl.
  unfold bind, future_result, lift. destruct (success r); simpl; eauto.
Qed.

Lemma collect_loop (xs : list (Path * CompressionResult)) (t : Tally) (w : World) :
  exists w', for_loop (map done_future xs) collect t w = (w', Ok (fold_left tally_add xs t))
             /\ fs w' = fs w /\ calls w' = calls w.
Proof.
  revert t w. induction xs as [|x xs IH]; intros t w; cbn [map for_loop fold_left].
  - exists w. auto.
  - destruct (collect_done t x w) as (w1 & E & Hfs & Hcalls).
    unfold bind. rewrite E.
    destruct (IH (tally_add t x) w1) as (w2 & E2 & Hfs2 & Hcalls2).
    exists w2. rewrite E2. repeat split; congruence.
Qed.

Lemma tally_observed (xs : list (Path * CompressionResult)) (t : Tally) :
  observed (fold_left tally_add xs t) = (observed t ++ xs)%list.
Proof.
  revert t. induction xs as [|x xs IH]; intros t; simpl.
  - symmetry. apply app_nil_r.
  - rewrite IH. unfold tally_add. destruct (success (snd x)); simpl;
      rewrite <- app_assoc; reflexivity.
Qed.

Lemma tally_counts (xs : list (Path * CompressionResult)) (t : Tally) :
  successful_compressions (fold_left tally_add xs t)
    = successful_compressions t + length (List.filter (fun x => success (snd x)) xs)
  /\ failed_compressions (fold_left tally_add xs t)
    = failed_compressions t + length (List.filter (fun x => negb (success (snd x))) xs).
Proof.
  revert t. induction xs as [|x xs IH]; intros t; simpl.
  - lia.
  - destruct (IH (tally_add t x)) as [Hs Hf]. rewrite Hs, Hf.
    unfold tally_add. destruct (success (snd x)); simpl; lia.
Qed.

Lemma tally_totals (xs : list (Path * CompressionResult)) (t : Tally) :
  total_original_size (fold_left tally_add xs t)
    = fold_left Qplus
        (map (fun x => original_size (snd x)) (List.filter (fun x => success (snd x)) xs))
        (total_original_size t)
  /\ total_compressed_size (fold_left tally_add xs t)
    = fold_left Qplus
        (map (fun x => compressed_size (snd x)) (List.filter (fun x => success (snd x)) xs))
        (total_compressed_size t).
Proof.
  revert t. induction xs as [|x xs IH]; intros t; simpl.
  - auto.
  - destruct (IH (tally_add t x)) as [Ho Hc]. rewrite Ho, Hc.
    unfold tally_add. destruct (success (snd x)); simpl; auto.
Qed.

Lemma tally_add_swap (t : Tally) (x y : Path * CompressionResult) :
  counters (tally_add (tally_add t x) y) = counters (tally_add (tally_add t y) x).
Proof.
  unfold counters, tally_add.
  destruct (success (snd x)), (success (snd y)); simpl; try reflexivity.
  rewrite (Qplus_swap_eq (total_original_size t)),
          (Qplus_swap_eq (total_compressed_size t)).
  reflexivity.
Qed.

Lemma tally_add_counters (t1 t2 : Tally) (x : Path * CompressionResult) :
  counters t1 = counters t2 -> counters (tally_add t1 x) = counters (tally_add t2 x).
Proof.
  unfold counters, tally_add. intros H. injection H as Ho Hc Hs Hf.
  destruct (success (snd x)); simpl; congruence.
Qed.

Lemma tally_fold_counters (xs : list (Path * CompressionResult)) (t1 t2 : Tally) :
  counters t1 = counters t2 ->
  counters (fold_left tally_add xs t1) = counters (fold_left tally_add xs t2).
Proof.
  revert t1 t2. induction xs as [|x xs IH]; intros t1 t2 H; simpl; [exact H|].
  apply IH, tally_add_counters, H.
Qed.

(** The numbers of the tally do not depend on the order of the results. *)
Lemma tally_perm (xs ys : list (Path * CompressionResult)) (t : Tally) :
  xs ≡ₚ ys ->
  counters (fold_left tally_add xs t) = counters (fold_left tally_add ys t).
Proof.
  intros Hp. revert t. induction Hp as [|x xs ys _ IH|x y xs|xs ys zs _ IH1 _ IH2];
    intros t; simpl.
  - reflexivity.
  - apply IH.
  - apply tally_fold_counters, tally_add_swap.
  - rewrite IH1. apply IH2.
Qed.

(** ** The run *)

Lemma overall_ok (tc to : Q) : overall tc to = Ok (overall_value tc to).
Proof.
  unfold overall, overall_value. destruct (Qgtb to 0) eqn:E; [|reflexivity].
  apply Qgtb_true in E. rewrite truediv_nonzero; [reflexivity|].
  intros H. rewrite H in E. exact (Qlt_irrefl _ E).
Qed.

Lemma summarize_counters (n : nat) (t1 t2 : Tally) :
  counters t1 = counters t2 -> summarize n t1 = summarize n t2.
Proof.
  unfold counters, summarize. intros H. injection H as Ho Hc Hs Hf.
  rewrite Ho, Hc, Hs, Hf. reflexivity.
Qed.

Section RunFacts.

Variable env : Modules.
Variable self : PDFCompressorPython.

Lemma tasks_run_files w ps xs w' : tasks_run env self w ps xs w' -> map fst xs = ps.
Proof. induction 1; simpl; congruence. Qed.

Lemma submit_loop (ps : list Path) (acc : list (Future * Path)) (w : World) :
  exists xs w',
    tasks_run env self w ps xs w'
    /\ for_loop ps (submit_file env self) acc w = (w', Ok (acc ++ map done_future xs)%list).
Proof.
  revert acc w. induction ps as [|p ps IH]; intros acc w.
  - exists [], w. split; [constructor|]. simpl. rewrite app_nil_r. reflexivity.
  - destruct (worker_total env self p (joinpath (output_dir self) (name p)) w)
      as (w1 & r & E).
    destruct (IH (acc ++ [(Ok r, p)])%list w1) as (xs & w2 & Hrun & Hloop).
    exists ((p, r) :: xs), w2. split; [econstructor; eassumption|].
    cbn [for_loop]. unfold bind at 1, submit_file at 1, bind at 1, submit.
    rewrite E. cbn [ret]. etrans; [exact Hloop|].
    rewrite <- app_assoc. reflexivity.
Qed.

(** With both libraries there, some file to compress and a positive number of
    workers, the run goes through to the summary. *)
Lemma compress_all_completes (max_workers : Z) (sched : list nat) (w : World) :
  PYMUPDF_AVAILABLE env = true ->
  PIL_AVAILABLE env = true ->
  glob_pdf (input_dir self) (fs w) <> [] ->
  (0 < max_workers)%Z ->
  exists xs w1 w',
    tasks_run env self (announced self w) (glob_pdf (input_dir self) (fs w)) xs w1
    /\ compress_all env self max_workers sched w
       = (w', Ok (Completed
                    (summarize (length (glob_pdf (input_dir self) (fs w)))
                               (fold_left tally_add (as_completed sched xs) tally0))
                    (as_completed sched xs)))
    /\ fs w' = fs w1 /\ calls w' = calls w1.
Proof.
  intros Hmu Hpil Hfiles Hmw.
  destruct (submit_loop (glob_pdf (input_dir self) (fs w)) [] (announced self w))
    as (xs & w1 & Hrun & Hsubmit).
  destruct (collect_loop (as_completed sched xs) tally0 w1) as (w2 & Hcollect & Hfs & Hcalls).
  unfold compress_all. rewrite Hmu, Hpil. cbn [negb].
  unfold bind at 1.
  destruct (glob_pdf (input_dir self) (fs w)) as [|p ps] eqn:Hglob; [congruence|].
  exists xs, w1. eexists. split; [exact Hrun|].
  unfold bind at 1, logger at 1. unfold bind at 1, logger at 1.
  unfold bind at 1, logger at 1. cbn [fs log calls].
  unfold bind at 1, ThreadPoolExecutor.
  rewrite (proj2 (Z.leb_gt _ _) Hmw). cbn [ret].
  unfold announced, logged in Hsubmit. rewrite Hglob in Hsubmit.
  unfold bind at 1. cbn [fs log calls] in Hsubmit. rewrite Hsubmit.
  cbn [app]. rewrite as_completed_map.
  unfold bind at 1. rewrite Hcollect.
  unfold bind at 1, lift at 1. rewrite overall_ok.
  rewrite tally_observed. cbn [tally0 observed app].
  unfold bind, logger, ret. cbn [fs log calls].
  split; [reflexivity|]. split; assumption.
Qed.

(** The three early returns of [compress_all]: nothing but logging happens. *)
Lemma compress_all_no_pymupdf (max_workers : Z) (sched : list nat) (w : World) :
  PYMUPDF_AVAILABLE env = false ->
  compress_all env self max_workers sched w
    = (logged (logged w (ERROR, MsgPyMuPDFRequired)) (ERROR, MsgInstallPyMuPDF),
       Ok NoPyMuPDF).
Proof. intros H. unfold compress_all. rewrite H. reflexivity. Qed.

Lemma compress_all_no_pillow (max_workers : Z) (sched : list nat) (w : World) :
  PYMUPDF_AVAILABLE env = true ->
  PIL_AVAILABLE env = false ->
  compress_all env self max_workers sched w
    = (logged (logged w (ERROR, MsgPillowRequired)) (ERROR, MsgInstallPillow),
       Ok NoPillow).
Proof. intros H1 H2. unfold compress_all. rewrite H1, H2. reflexivity. Qed.

Lemma compress_all_no_files (max_workers : Z) (sched : list nat) (w : World) :
  PYMUPDF_AVAILABLE env = true ->
  PIL_AVAILABLE env = true ->
  glob_pdf (input_dir self) (fs w) = [] ->
  compress_all env self max_workers sched w
    = (logged w (ERROR, MsgNoPdfFound (input_dir self)), Ok NoFiles).
Proof.
  intros H1 H2 H3. unfold compress_all. rewrite H1, H2. cbn [negb].
  unfold bind at 1. rewrite H3. reflexivity.
Qed.

(** A pool cannot be made with no worker: line 152 raises. *)
Lemma compress_all_bad_workers (max_workers : Z) (sched : list nat) (w : World) :
  PYMUPDF_AVAILABLE env = true ->
  PIL_AVAILABLE env = true ->
  glob_pdf (input_dir self) (fs w) <> [] ->
  (max_workers <= 0)%Z ->
  compress_all env self max_workers sched w
    = (announced self w, Raise (mkExc ValueError "max_workers must be greater than 0")).
Proof.
  intros Hmu Hpil Hfiles Hmw. unfold compress_all. rewrite Hmu, Hpil. cbn [negb].
  unfold bind at 1. unfold announced.
  destruct (glob_pdf (input_dir self) (fs w)) as [|p ps] eqn:Hglob; [congruence|].
  unfold bind at 1, logger at 1. unfold bind at 1, logger at 1.
  unfold bind at 1, logger at 1. cbn [fs log calls].
  unfold bind at 1, ThreadPoolExecutor.
  rewrite (proj2 (Z.leb_le _ _) Hmw). reflexivity.
Qed.

Lemma tasks_run_det w ps xs xs' w1 w1' :
  tasks_run env self w ps xs w1 -> tasks_run env self w ps xs' w1' -> xs = xs' /\ w1 = w1'.
Proof.
  intros H. revert xs' w1'. induction H as [w|w wa wb p r ps xs E _ IH]; intros xs' w1' H'.
  - inversion H'. auto.
  - inversion H' as [|? wa' ? ? r' ? xs0 E' Hrest]; subst.
    rewrite E in E'. injection E' as -> ->.
    destruct (IH _ _ Hrest) as [-> ->]. auto.
Qed.

(** A run that reached the summary. *)
Lemma compress_all_completed_inv (max_workers : Z) (sched : list nat)
    (w w' : World) (s : RunSummary) (seen : list (Path * CompressionResult)) :
  compress_all env self max_workers sched w = (w', Ok (Completed s seen)) ->
  PYMUPDF_AVAILABLE env = true
  /\ PIL_AVAILABLE env = true
  /\ glob_pdf (input_dir self) (fs w) <> []
  /\ (0 < max_workers)%Z
  /\ exists xs w1,
       tasks_run env self (announced self w) (glob_pdf (input_dir self) (fs w)) xs w1
       /\ seen = as_completed sched xs
       /\ s = summarize (length (glob_pdf (input_dir self) (fs w)))
                        (fold_left tally_add seen tally0).
Proof.
  intros H.
  destruct (PYMUPDF_AVAILABLE env) eqn:Hmu;
    [|rewrite compress_all_no_pymupdf in H by assumption; discriminate].
  destruct (PIL_AVAILABLE env) eqn:Hpil;
    [|rewrite compress_all_no_pillow in H by assumption; discriminate].
  destruct (decide (glob_pdf (input_dir self) (fs w) = [])) as [Hnil|Hfiles];
    [rewrite compress_all_no_files in H by assumption; discriminate|].
  destruct (Z_lt_le_dec 0 max_workers) as [Hmw|Hmw];
    [|rewrite compress_all_bad_workers in H by assumption; discriminate].
  destruct (compress_all_completes max_workers sched w Hmu Hpil Hfiles Hmw)
    as (xs & w1 & w2 & Hrun & E & _).
  rewrite E in H. injection H as _ <- <-.
  repeat split; try assumption. exists xs, w1. auto.
Qed.

End RunFacts.

(** ** The listing *)

Lemma glob_pdf_NoDup (dir : Path) (m : FS) : NoDup (glob_pdf dir m).
Proof.
  unfold glob_pdf. apply NoDup_ListNoDup, List.NoDup_filter, NoDup_ListNoDup.
  apply NoDup_fst_map_to_list.
Qed.

Lemma glob_pdf_spec (dir : Path) (m : FS) (p : Path) :
  p ∈ glob_pdf dir m <->
  is_Some (m !! p) /\ p = joinpath dir (name p) /\ matches_pdf (name p) = true.
Proof.
  unfold glob_pdf. rewrite list_elem_of_In, filter_In, <- list_elem_of_In.
  rewrite list_elem_of_fmap, andb_true_iff. unfold is_child.
  rewrite bool_decide_eq_true. split.
  - intros [([q st] & -> & Hin) H]. apply elem_of_map_to_list in Hin.
    split; [eauto|exact H].
  - intros ([st Hst] & H1 & H2). split; [|auto].
    exists (p, st). split; [reflexivity|]. apply elem_of_map_to_list. exact Hst.
Qed.

(** An element of a duplicate-free list is counted once. *)
Lemma counted_once {A} `{EqDecision A} (l : list A) (a : A) :
  NoDup l -> a ∈ l -> length (List.filter (fun b => bool_decide (b = a)) l) = 1.
Proof.
  induction 1 as [|x l Hx Hl IH]; intros Hin.
  - inversion Hin.
  - simpl. destruct (decide (x = a)) as [->|Hne].
    + rewrite bool_decide_eq_true_2 by reflexivity. simpl. f_equal.
      clear IH Hin Hl. induction l as [|y l IHl]; [reflexivity|].
      simpl. apply not_elem_of_cons in Hx as [Hy Hl].
      rewrite bool_decide_eq_false_2 by congruence. apply IHl, Hl.
    + rewrite bool_decide_eq_false_2 by assumption. apply IH.
      apply elem_of_cons in Hin as [->|Hin]; [contradiction|exact Hin].
Qed.

Lemma filter_length_perm {A} (f : A -> bool) (l l' : list A) :
  l ≡ₚ l' -> length (List.filter f l) = length (List.filter f l').
Proof.
  induction 1 as [|x l l' _ IH|x y l|l l' l'' _ IH1 _ IH2]; simpl.
  - reflexivity.
  - destruct (f x); simpl; congruence.
  - destruct (f x), (f y); reflexivity.
  - congruence.
Qed.

Lemma filter_length_map {A B} (g : A -> B) (f : B -> bool) (l : list A) :
  length (List.filter f (map g l)) = length (List.filter (fun a => f (g a)) l).
Proof.
  induction l as [|a l IH]; [reflexivity|].
  simpl. destruct (f (g a)); simpl; congruence.
Qed.

Lemma filter_length_split {A} (f : A -> bool) (l : list A) :
  length (List.filter f l) + length (List.filter (fun a => negb (f a)) l) = length l.
Proof.
  induction l as [|a l IH]; [reflexivity|].
  simpl. destruct (f a); simpl; lia.
Qed.

Example sample_glob :
  glob_pdf ["papers"] Sample.papers = [["papers"; "b.pdf"]; ["papers"; "a.pdf"]].
Proof. vm_compute. reflexivity. Qed.

Example sample_order :
  as_completed [1; 0] ["x"; "y"; "z"] = ["y"; "x"; "z"]
  /\ as_completed [2; 1] ["x"; "y"; "z"] = ["z"; "y"; "x"]
  /\ as_completed [] ["x"; "y"; "z"] = ["x"; "y"; "z"].
Proof. repeat split. Qed.

(** ** The tallies of a run *)

(** C1. In every run that reaches the summary, the number of files processed
    that is logged is the number of successful plus the number of failed
    compressions; each file of the listing has its task run, and the result of
    that task is handled by exactly one turn of the collecting loop. *)
Theorem processed_is_successes_plus_failures
    (env : Modules) (self : PDFCompressorPython) (max_workers : Z)
    (sched : list nat) (w w' : World) (s : RunSummary)
    (seen : list (Path * CompressionResult)) :
  compress_all env self max_workers sched w = (w', Ok (Completed s seen)) ->
  files_processed s = successes s + failures s
  /\ files_processed s = length (glob_pdf (input_dir self) (fs w))
  /\ NoDup (glob_pdf (input_dir self) (fs w))
  /\ (exists xs w1,
        tasks_run env self (announced self w) (glob_pdf (input_dir self) (fs w)) xs w1
        /\ map fst xs = glob_pdf (input_dir self) (fs w)
        /\ seen ≡ₚ xs)
  /\ (forall p, p ∈ glob_pdf (input_dir self) (fs w) ->
        length (List.filter (fun x => bool_decide (fst x = p)) seen) = 1).
Proof.
  intros H.
  apply compress_all_completed_inv in H
    as (_ & _ & _ & _ & xs & w1 & Hrun & Hseen & ->).
  pose proof (tasks_run_files _ _ _ _ _ _ Hrun) as Hfiles.
  assert (Hperm : seen ≡ₚ xs) by (subst seen; apply as_completed_perm).
  assert (Hlen : length seen = length (glob_pdf (input_dir self) (fs w))).
  { rewrite <- Hfiles, length_map. apply Permutation_length, Hperm. }
  split; [|split; [|split; [|split]]].
  - cbn [summarize files_processed successes failures].
    destruct (tally_counts seen tally0) as [-> ->]. cbn [tally0 successful_compressions failed_compressions].
    rewrite <- Hlen, <- (filter_length_split (fun x => success (snd x)) seen). lia.
  - reflexivity.
  - apply glob_pdf_NoDup.
  - exists xs, w1. auto.
  - intros p Hp.
    rewrite (filter_length_perm _ _ _ Hperm).
    transitivity (length (List.filter (fun q => bool_decide (q = p)) (map fst xs))).
    { symmetry. apply (filter_length_map fst (fun q => bool_decide (q = p))). }
    rewrite Hfiles. apply counted_once; [apply glob_pdf_NoDup|exact Hp].
Qed.

Lemma processed_is_successes_plus_failures_witness :
  exists w' s seen,
    compress_all Sample.modules Sample.self 2 [1] Sample.start
      = (w', Ok (Completed s seen))
    /\ files_processed s = 2 /\ successes s = 1 /\ failures s = 1
    /\ files_processed s = successes s + failures s.
Proof.
  eexists _, _, _. split; [vm_compute; reflexivity|].
  split; [reflexivity|]. split; [reflexivity|]. split; [reflexivity|].
  eapply (processed_is_successes_plus_failures
            Sample.modules Sample.self 2 [1] Sample.start).
  vm_compute. reflexivity.
Defined.

(** C2. The overall ratio of line 179 is [1 - total_compressed/total_original],
    logged as a percentage (times 100); it is exactly 0 when the total original
    size is 0, and computing it never raises [ZeroDivisionError]: the division
    is reached only with a positive divisor.  The summary of every run holds
    the value so computed. *)
Theorem overall_ratio_guarded (tc to : Q) :
  (exists v, overall tc to = Ok v)
  /\ ((to == 0)%Q -> overall tc to = Ok 0%Q)
  /\ ((0 < to)%Q -> overall tc to = Ok ((1 - tc / to) * 100)%Q)
  /\ (forall env self max_workers sched w w' s seen,
        compress_all env self max_workers sched w = (w', Ok (Completed s seen)) ->
        overall (total_compressed s) (total_original s) = Ok (overall_compression s)).
Proof.
  split; [|split; [|split]].
  - rewrite overall_ok. eauto.
  - intros H. unfold overall.
    rewrite (proj2 (Qgtb_false to 0)); [reflexivity|].
    rewrite H. apply Qle_refl.
  - intros H. rewrite overall_ok. unfold overall_value.
    rewrite (proj2 (Qgtb_true to 0) H). reflexivity.
  - intros env self max_workers sched w w' s seen H.
    apply compress_all_completed_inv in H as (_ & _ & _ & _ & xs & w1 & _ & _ & ->).
    cbn [summarize total_compressed total_original overall_compression].
    apply overall_ok.
Qed.

Lemma overall_ratio_guarded_witness :
  overall 1 0 = Ok 0%Q
  /\ overall 1 2 = Ok ((1 - 1 / 2) * 100)%Q
  /\ ((1 - 1 / 2) * 100 == 50)%Q
  /\ summary_of (compress_all Sample.modules Sample.self 2 [] Sample.start_broken)
     = Some {| files_processed := 1; successes := 0; failures := 1;
               total_original := 0; total_compressed := 0;
               overall_compression := 0 |}.
Proof.
  split; [|split; [|split]].
  - apply (proj1 (proj2 (overall_ratio_guarded 1 0))). reflexivity.
  - apply (proj1 (proj2 (proj2 (overall_ratio_guarded 1 2)))). reflexivity.
  - reflexivity.
  - vm_compute. reflexivity.
Defined.

(** C3. In every run that reaches the summary, the total original size and the
    total compressed size are the sums of the sizes of the results with
    [success] true, and only of those; the failed results are counted in the
    number of failures and add to neither total: a turn of the collecting loop
    on a failed result adds one to the failures and leaves both totals as
    they are. *)
Theorem totals_from_successes_only
    (env : Modules) (self : PDFCompressorPython) (max_workers : Z)
    (sched : list nat) (w w' : World) (s : RunSummary)
    (seen : list (Path * CompressionResult)) :
  compress_all env self max_workers sched w = (w', Ok (Completed s seen)) ->
  total_original s
    = Qsum (map (fun x => original_size (snd x))
                (List.filter (fun x => success (snd x)) seen))
  /\ total_compressed s
    = Qsum (map (fun x => compressed_size (snd x))
                (List.filter (fun x => success (snd x)) seen))
  /\ successes s = length (List.filter (fun x => success (snd x)) seen)
  /\ failures s = length (List.filter (fun x => negb (success (snd x))) seen)
  /\ (forall t r pdf_file w0,
        success r = false ->
        exists w0' t',
          collect t (Ok r, pdf_file) w0 = (w0', Ok t')
          /\ total_original_size t' = total_original_size t
          /\ total_compressed_size t' = total_compressed_size t
          /\ successful_compressions t' = successful_compressions t
          /\ failed_compressions t' = failed_compressions t + 1).
Proof.
  intros H.
  apply compress_all_completed_inv in H as (_ & _ & _ & _ & xs & w1 & _ & _ & ->).
  cbn [summarize total_original total_compressed successes failures].
  destruct (tally_totals seen tally0) as [-> ->].
  destruct (tally_counts seen tally0) as [-> ->].
  repeat split.
  intros t r pdf_file w0 Hr.
  destruct (collect_done t (pdf_file, r) w0) as (w0' & E & _).
  exists w0', (tally_add t (pdf_file, r)). split; [exact E|].
  unfold tally_add. cbn [snd]. rewrite Hr. repeat split.
Qed.

Lemma totals_from_successes_only_witness :
  exists w' s seen,
    compress_all Sample.modules Sample.self 2 [1] Sample.start
      = (w', Ok (Completed s seen))
    /\ map (fun x => (success (snd x), original_size (snd x))) seen
       = [(true, megabytes 2097152); (false, megabytes 64)]
    /\ total_original s = (0 + megabytes 2097152)%Q
    /\ total_original s
       = Qsum (map (fun x => original_size (snd x))
                   (List.filter (fun x => success (snd x)) seen)).
Proof.
  eexists _, _, _. split; [vm_compute; reflexivity|].
  split; [reflexivity|]. split; [reflexivity|].
  eapply (totals_from_successes_only
            Sample.modules Sample.self 2 [1] Sample.start).
  vm_compute. reflexivity.
Defined.

(** ** Failures stay in the worker *)



(** ** The order of completion *)

(** C5. The summary (files processed, successes, failures, total original
    size, total compressed size, overall ratio) does not depend on the order
    in which the futures complete: under every scheduler it is the summary of
    the run in which they complete in submission order, the strictly
    sequential run.  Every order of completion is some scheduler's, and the
    tally of the collecting loop is the same for any two orders of the same
    results. *)
Theorem summary_independent_of_completion_order
    (env : Modules) (self : PDFCompressorPython) (max_workers : Z) (w : World) :
  (forall sched,
     summary_of (compress_all env self max_workers sched w)
       = summary_of (compress_all env self max_workers [] w)
     /\ ending (compress_all env self max_workers sched w)
       = ending (compress_all env self max_workers [] w))
  /\ (forall (futures done : list (Future * Path)),
        as_completed [] futures = futures
        /\ (done ≡ₚ futures -> exists sched, as_completed sched futures = done))
  /\ (forall (xs ys : list (Path * CompressionResult)) n,
        xs ≡ₚ ys ->
        summarize n (fold_left tally_add xs tally0)
          = summarize n (fold_left tally_add ys tally0)).
Proof.
  assert (Hsum : forall (xs ys : list (Path * CompressionResult)) n,
             xs ≡ₚ ys ->
             summarize n (fold_left tally_add xs tally0)
               = summarize n (fold_left tally_add ys tally0)).
  { intros xs ys n Hp. apply summarize_counters, tally_perm, Hp. }
  split; [|split].
  - intros sched.
    destruct (PYMUPDF_AVAILABLE env) eqn:Hmu;
      [|rewrite !compress_all_no_pymupdf by assumption; auto].
    destruct (PIL_AVAILABLE env) eqn:Hpil;
      [|rewrite !compress_all_no_pillow by assumption; auto].
    destruct (decide (glob_pdf (input_dir self) (fs w) = [])) as [Hnil|Hfiles];
      [rewrite !compress_all_no_files by assumption; auto|].
    destruct (Z_lt_le_dec 0 max_workers) as [Hmw|Hmw];
      [|rewrite !compress_all_bad_workers by assumption; auto].
    destruct (compress_all_completes env self max_workers sched w Hmu Hpil Hfiles Hmw)
      as (xs & w1 & w' & Hrun & E & _).
    destruct (compress_all_completes env self max_workers [] w Hmu Hpil Hfiles Hmw)
      as (xs0 & w10 & w0' & Hrun0 & E0 & _).
    destruct (tasks_run_det _ _ _ _ _ _ _ _ Hrun Hrun0) as [<- _].
    rewrite E, E0. unfold summary_of, ending. cbn [snd].
    rewrite (Hsum (as_completed sched xs) (as_completed [] xs)); [auto|].
    rewrite !as_completed_perm. reflexivity.
  - intros futures done. split; [apply as_completed_sequential|apply as_completed_any].
  - exact Hsum.
Qed.

Lemma summary_independent_of_completion_order_witness :
  as_completed [1] [(Ok (failure_result ∅ [] (mkExc RuntimeError "")), ["b.pdf"]);
                    (Ok (mkResult true 2 1 50 None), ["a.pdf"])]
    = [(Ok (mkResult true 2 1 50 None), ["a.pdf"]);
       (Ok (failure_result ∅ [] (mkExc RuntimeError "")), ["b.pdf"])]
  /\ summary_of (compress_all Sample.modules Sample.self 2 [1] Sample.start)
     = summary_of (compress_all Sample.modules Sample.self 2 [] Sample.start)
  /\ summarize 2 (fold_left tally_add
                    [(["a.pdf"], mkResult true 2 1 50 None);
                     (["b.pdf"], mkResult true 3 1 60 None)] tally0)
     = summarize 2 (fold_left tally_add
                    [(["b.pdf"], mkResult true 3 1 60 None);
                     (["a.pdf"], mkResult true 2 1 50 None)] tally0).
Proof.
  pose proof (summary_independent_of_completion_order
                Sample.modules Sample.self 2 Sample.start) as (H1 & H2 & H3).
  split; [reflexivity|]. split; [apply H1|].
  apply H3. apply perm_swap.
Defined.

(** ** The early returns and the exit status *)

Lemma main_unfold (env : Modules) (args : Args) (sched : list nat) (w w1 : World)
    (self : PDFCompressorPython) :
  init (arg_input_dir args) (arg_output_dir args)
       (arg_image_quality args) (arg_image_dpi args) w = (w1, Ok self) ->
  main env args sched w
    = match compress_all env self (arg_workers args) sched w1 with
      | (w2, Ok _) => (w2, Ok tt)
      | (w2, Raise e) => (w2, Raise e)
      end.
Proof.
  intros H. unfold main. unfold bind at 1. rewrite H. unfold bind, ret.
  destruct (compress_all env self (arg_workers args) sched w1) as [w2 [x|e]];
    reflexivity.
Qed.

(** C6, as stated, fails: without PyMuPDF the script logs two errors and
    [compress_all] returns, so [main] returns and the interpreter exits with
    status 0. *)
Lemma missing_capability_exit_status_counterexample :
  PYMUPDF_AVAILABLE Sample.without_pymupdf = false
  /\ main Sample.without_pymupdf Sample.args [] Sample.start
     = (mkWorld (<[ ["out"] := mkStat true 0 ]> Sample.papers)
                [(ERROR, MsgPyMuPDFRequired); (ERROR, MsgInstallPyMuPDF)] [],
        Ok tt)
  /\ exit_status (main Sample.without_pymupdf Sample.args [] Sample.start) = 0%Z
  /\ ~ (exit_status (main Sample.without_pymupdf Sample.args [] Sample.start) <> 0%Z).
Proof.
  split; [reflexivity|]. split; [vm_compute; reflexivity|].
  split; [vm_compute; reflexivity|]. intros H. apply H. vm_compute. reflexivity.
Qed.

(** C6, amended. When PyMuPDF is missing, [compress_all] logs two errors and
    returns before it lists the directory or runs any task: the file system is
    as [__init__] left it and the library is not called.  The process then
    exits with status 0, as it does when Pillow is missing, when no file is
    found and when the run reaches its summary. *)
Theorem missing_capability_returns_early
    (env : Modules) (args : Args) (sched : list nat) (w w1 : World)
    (self : PDFCompressorPython) :
  init (arg_input_dir args) (arg_output_dir args)
       (arg_image_quality args) (arg_image_dpi args) w = (w1, Ok self) ->
  (PYMUPDF_AVAILABLE env = false ->
     compress_all env self (arg_workers args) sched w1
       = (logged (logged w1 (ERROR, MsgPyMuPDFRequired)) (ERROR, MsgInstallPyMuPDF),
          Ok NoPyMuPDF)
     /\ main env args sched w
       = (logged (logged w1 (ERROR, MsgPyMuPDFRequired)) (ERROR, MsgInstallPyMuPDF),
          Ok tt))
  /\ (PYMUPDF_AVAILABLE env = false
      \/ PIL_AVAILABLE env = false
      \/ glob_pdf (input_dir self) (fs w1) = []
      \/ (0 < arg_workers args)%Z ->
      exit_status (main env args sched w) = 0%Z).
Proof.
  intros Hinit. split.
  - intros Hmu. split; [apply compress_all_no_pymupdf, Hmu|].
    rewrite (main_unfold _ _ _ _ _ _ Hinit), compress_all_no_pymupdf by assumption.
    reflexivity.
  - intros H. rewrite (main_unfold _ _ _ _ _ _ Hinit).
    destruct (PYMUPDF_AVAILABLE env) eqn:Hmu;
      [|rewrite compress_all_no_pymupdf by assumption; reflexivity].
    destruct (PIL_AVAILABLE env) eqn:Hpil;
      [|rewrite compress_all_no_pillow by assumption; reflexivity].
    destruct (decide (glob_pdf (input_dir self) (fs w1) = [])) as [Hnil|Hfiles];
      [rewrite compress_all_no_files by assumption; reflexivity|].
    destruct H as [H|[H|[H|H]]]; try congruence.
    destruct (compress_all_completes env self (arg_workers args) sched w1
                Hmu Hpil Hfiles H) as (xs & wa & wb & _ & E & _).
    rewrite E. reflexivity.
Qed.

Lemma missing_capability_returns_early_witness :
  exists w1 self,
    init ["papers"] ["out"] 50 150 Sample.start = (w1, Ok self)
    /\ fs w1 = <[ ["out"] := mkStat true 0 ]> Sample.papers
    /\ compress_all Sample.without_pymupdf self 2 [] w1
       = (logged (logged w1 (ERROR, MsgPyMuPDFRequired)) (ERROR, MsgInstallPyMuPDF),
          Ok NoPyMuPDF)
    /\ exit_status (main Sample.without_pymupdf Sample.args [] Sample.start) = 0%Z
    /\ exit_status (main Sample.modules Sample.args [] Sample.start) = 0%Z.
Proof.
  eexists _, _.
  assert (Hinit : init (arg_input_dir Sample.args) (arg_output_dir Sample.args)
                    (arg_image_quality Sample.args) (arg_image_dpi Sample.args)
                    Sample.start
                  = (mkWorld (<[ ["out"] := mkStat true 0 ]> Sample.papers) [] [],
                     Ok Sample.self))
    by (vm_compute; reflexivity).
  split; [exact Hinit|]. split; [reflexivity|].
  split; [|split].
  - apply (proj1 (missing_capability_returns_early
                    Sample.without_pymupdf Sample.args [] _ _ _ Hinit)).
    reflexivity.
  - apply (proj2 (missing_capability_returns_early
                    Sample.without_pymupdf Sample.args [] _ _ _ Hinit)).
    left. reflexivity.
  - apply (proj2 (missing_capability_returns_early
                    Sample.modules Sample.args [] _ _ _ Hinit)).
    right. right. right. reflexivity.
Defined.

(** C7. When the listing of the input directory is empty, [compress_all] logs
    that no PDF file was found and returns normally: no task is submitted, the
    library is not called and the file system is not changed; [main] returns
    and the exit status is 0. *)
Theorem no_input_returns_cleanly
    (env : Modules) (args : Args) (sched : list nat) (w w1 : World)
    (self : PDFCompressorPython) :
  PYMUPDF_AVAILABLE env = true ->
  PIL_AVAILABLE env = true ->
  init (arg_input_dir args) (arg_output_dir args)
       (arg_image_quality args) (arg_image_dpi args) w = (w1, Ok self) ->
  glob_pdf (input_dir self) (fs w1) = [] ->
  exists w',
    compress_all env self (arg_workers args) sched w1 = (w', Ok NoFiles)
    /\ log w' = (log w1 ++ [(ERROR, MsgNoPdfFound (input_dir self))])%list
    /\ fs w' = fs w1
    /\ calls w' = calls w1
    /\ main env args sched w = (w', Ok tt)
    /\ exit_status (main env args sched w) = 0%Z.
Proof.
  intros Hmu Hpil Hinit Hnil.
  exists (logged w1 (ERROR, MsgNoPdfFound (input_dir self))).
  rewrite (main_unfold _ _ _ _ _ _ Hinit).
  rewrite (compress_all_no_files env self _ sched w1 Hmu Hpil Hnil).
  repeat split.
Qed.

Lemma no_input_returns_cleanly_witness :
  exists w',
    compress_all Sample.modules Sample.self 2 []
      (mkWorld (<[ ["out"] := mkStat true 0 ]> Sample.no_papers) [] [])
      = (w', Ok NoFiles)
    /\ log w' = [(ERROR, MsgNoPdfFound ["papers"])]
    /\ fs w' = <[ ["out"] := mkStat true 0 ]> Sample.no_papers
    /\ calls w' = []
    /\ main Sample.modules Sample.args [] Sample.start_empty = (w', Ok tt)
    /\ exit_status (main Sample.modules Sample.args [] Sample.start_empty) = 0%Z.
Proof.
  assert (Hinit : init (arg_input_dir Sample.args) (arg_output_dir Sample.args)
                    (arg_image_quality Sample.args) (arg_image_dpi Sample.args)
                    Sample.start_empty
                  = (mkWorld (<[ ["out"] := mkStat true 0 ]> Sample.no_papers) [] [],
                     Ok Sample.self))
    by (vm_compute; reflexivity).
  assert (Hnil : glob_pdf (input_dir Sample.self)
                   (fs (mkWorld (<[ ["out"] := mkStat true 0 ]> Sample.no_papers) [] []))
                 = [])
    by (vm_compute; reflexivity).
  exact (no_input_returns_cleanly Sample.modules Sample.args [] Sample.start_empty
           _ Sample.self eq_refl eq_refl Hinit Hnil).
Defined.

(** C10. Without Pillow, [compress_all] returns before line 136: it only logs,
    whatever the input directory holds; the directory is not listed, no task
    is submitted and the library is not called.  Yet the worker does not
    depend on Pillow: it is the same function whether Pillow was imported or
    not. *)
Theorem pillow_is_required_for_any_work
    (env : Modules) (self : PDFCompressorPython) (max_workers : Z)
    (sched : list nat) (w : World) :
  PIL_AVAILABLE env = false ->
  (exists w' x,
     compress_all env self max_workers sched w = (w', Ok x)
     /\ (x = NoPillow \/ x = NoPyMuPDF)
     /\ fs w' = fs w
     /\ calls w' = calls w
     /\ (PYMUPDF_AVAILABLE env = true ->
         x = NoPillow
         /\ log w' = (log w ++ [(ERROR, MsgPillowRequired);
                               (ERROR, MsgInstallPillow)])%list))
  /\ (forall pil input_path output_path,
        compress_pdf_pymupdf (mkModules (PYMUPDF_AVAILABLE env) pil (fitz env))
          self input_path output_path
        = compress_pdf_pymupdf env self input_path output_path).
Proof.
  intros Hpil. split; [|reflexivity].
  destruct (PYMUPDF_AVAILABLE env) eqn:Hmu.
  - eexists _, _. split; [apply compress_all_no_pillow; assumption|].
    split; [left; reflexivity|]. split; [reflexivity|]. split; [reflexivity|].
    intros _. split; [reflexivity|]. cbn [logged log]. rewrite <- app_assoc.
    reflexivity.
  - eexists _, _. split; [apply compress_all_no_pymupdf; assumption|].
    split; [right; reflexivity|]. split; [reflexivity|]. split; [reflexivity|].
    discriminate.
Qed.

Lemma pillow_is_required_for_any_work_witness :
  glob_pdf (input_dir Sample.self) (fs Sample.start)
    = [["papers"; "b.pdf"]; ["papers"; "a.pdf"]]
  /\ exists w' x,
       compress_all Sample.without_pillow Sample.self 2 [] Sample.start = (w', Ok x)
       /\ (x = NoPillow \/ x = NoPyMuPDF)
       /\ fs w' = fs Sample.start
       /\ calls w' = calls Sample.start
       /\ (PYMUPDF_AVAILABLE Sample.without_pillow = true ->
           x = NoPillow
           /\ log w' = (log Sample.start ++ [(ERROR, MsgPillowRequired);
                                            (ERROR, MsgInstallPillow)])%list).
Proof.
  split; [vm_compute; reflexivity|].
  apply (proj1 (pillow_is_required_for_any_work
                  Sample.without_pillow Sample.self 2 [] Sample.start eq_refl)).
Defined.

(** ** What the library is asked to do *)

(** C8. The quality and DPI options never reach the delegated call: the worker
    does not read them, [doc.save] is always called with the constants of
    lines 93-96, and two runs that differ only in these options make the same
    calls and leave the same files.  The options appear in two log lines
    only. *)
Theorem quality_and_dpi_not_forwarded :
  (forall env input_dir output_dir q d q' d' input_path output_path,
     compress_pdf_pymupdf env (mkCompressor input_dir output_dir q d)
       input_path output_path
     = compress_pdf_pymupdf env (mkCompressor input_dir output_dir q' d')
         input_path output_path)
  /\ (let low := main Sample.modules (mkArgs ["papers"] ["out"] 30 100 2) [] Sample.start in
      let high := main Sample.modules (mkArgs ["papers"] ["out"] 70 200 2) [] Sample.start in
      calls (fst low)
        = [CallOpen ["papers"; "b.pdf"];
           CallOpen ["papers"; "a.pdf"];
           CallSave ["out"; "a.pdf"]
             {| garbage := 4; deflate := true; clean := true; pretty := false |};
           CallClose]
      /\ calls (fst high) = calls (fst low)
      /\ fs (fst high) = fs (fst low)
      /\ List.filter (fun r => match snd r with
                               | MsgImageQuality _ | MsgTargetDpi _ => false
                               | _ => true
                               end) (log (fst high))
         = List.filter (fun r => match snd r with
                                 | MsgImageQuality _ | MsgTargetDpi _ => false
                                 | _ => true
                                 end) (log (fst low))).
Proof.
  split; [reflexivity|].
  cbv zeta. repeat split; vm_compute; reflexivity.
Qed.

(** ** What a result records *)

(** Every result of the worker comes from the end of the [try] block or from
    the handler. *)
Lemma worker_result_inv (env : Modules) (self : PDFCompressorPython)
    (input_path output_path : Path) (w w1 : World) (r : CompressionResult) :
  compress_pdf_pymupdf env self input_path output_path w = (w1, Ok r) ->
  (exists si so,
     fs w1 !! input_path = Some si
     /\ fs w1 !! output_path = Some so
     /\ st_size si <> 0%N
     /\ delegated_call env input_path output_path w = (w1, Ok tt)
     /\ r = {| success := true;
               original_size := megabytes (st_size si);
               compressed_size := megabytes (st_size so);
               compression_ratio :=
                 ((1 - megabytes (st_size so) / megabytes (st_size si)) * 100)%Q;
               error := None |})
  \/ (exists e, r = failure_result (fs w1) input_path e).
Proof.
  intros H.
  destruct (delegated_call env input_path output_path w) as [w0 [[]|e]] eqn:Hcall.
  2:{ rewrite (worker_on_failure env self _ _ _ _ _ Hcall) in H.
      injection H as <- <-. right. exists e. reflexivity. }
  destruct (fs w0 !! input_path) as [si|] eqn:Hi.
  2:{ destruct (get_file_size_none _ _ Hi) as [e He].
      rewrite (worker_handles env self input_path output_path w w0 e) in H.
      - injection H as <- <-. right. exists e. reflexivity.
      - unfold bind at 1. rewrite Hcall. unfold bind at 1. rewrite He. reflexivity. }
  destruct (fs w0 !! output_path) as [so|] eqn:Ho.
  2:{ destruct (get_file_size_none _ _ Ho) as [e He].
      rewrite (worker_handles env self input_path output_path w w0 e) in H.
      - injection H as <- <-. right. exists e. reflexivity.
      - unfold bind at 1. rewrite Hcall.
        unfold bind at 1. rewrite (get_file_size_some _ _ _ Hi).
        unfold bind at 1. rewrite He. reflexivity. }
  destruct (decide (st_size si = 0%N)) as [Hz|Hnz].
  - destruct (truediv_zero (megabytes (st_size so)) (megabytes (st_size si)))
      as (e & He & _).
    { rewrite Hz. reflexivity. }
    rewrite (worker_handles env self input_path output_path w w0 e) in H.
    + injection H as <- <-. right. exists e. reflexivity.
    + unfold bind at 1. rewrite Hcall.
      unfold bind at 1. rewrite (get_file_size_some _ _ _ Hi).
      unfold bind at 1. rewrite (get_file_size_some _ _ _ Ho).
      unfold bind at 1, lift. rewrite He. reflexivity.
  - rewrite (worker_on_success env self _ _ _ _ si so Hcall Hi Ho Hnz) in H.
    injection H as <- <-. left. exists si, so. auto.
Qed.

(** C9, as stated, fails twice.  A successful result holds the sizes in
    megabytes: for an input of 2097152 bytes saved as 1048576 bytes it records
    2 and 1.  A failed result holds a compressed size of 0 and a ratio of 0,
    which is not [1 - compressed/original] as a percentage (that is 100). *)
Lemma result_sizes_counterexample :
  Sample.papers !! ["papers"; "a.pdf"] = Some (mkStat false 2097152)
  /\ (exists w1 r,
        compress_pdf_pymupdf Sample.modules Sample.self
          ["papers"; "a.pdf"] ["out"; "a.pdf"] Sample.start = (w1, Ok r)
        /\ fs w1 !! ["out"; "a.pdf"] = Some (mkStat false 1048576)
        /\ success r = true
        /\ (original_size r == 2)%Q /\ (compressed_size r == 1)%Q
        /\ ~ (original_size r == inject_Z 2097152)%Q
        /\ ~ (compressed_size r == inject_Z 1048576)%Q)
  /\ (exists w1 r,
        compress_pdf_pymupdf Sample.modules Sample.self
          ["papers"; "b.pdf"] ["out"; "b.pdf"] Sample.start = (w1, Ok r)
        /\ success r = false
        /\ (compression_ratio r == 0)%Q
        /\ ((1 - compressed_size r / original_size r) * 100 == 100)%Q
        /\ ~ (compression_ratio r
              == (1 - compressed_size r / original_size r) * 100)%Q).
Proof.
  split; [vm_compute; reflexivity|]. split.
  - eexists _, _. split; [vm_compute; reflexivity|].
    split; [vm_compute; reflexivity|]. split; [reflexivity|].
    repeat split; try reflexivity; intros H; vm_compute in H; discriminate.
  - eexists _, _. split; [vm_compute; reflexivity|].
    split; [reflexivity|].
    repeat split; try reflexivity; intros H; vm_compute in H; discriminate.
Qed.

(** C9, amended. A successful result records the size of the input file and
    the size of the output file in megabytes (bytes / 1048576), and its
    compression ratio is [1 - compressed_size/original_size] as a percentage.
    A failed result records a compressed size of 0 and a ratio of 0, and as
    original size the input's size in megabytes when the input exists, else
    0. *)
Theorem result_records_megabytes
    (env : Modules) (self : PDFCompressorPython)
    (input_path output_path : Path) (w w1 : World) (r : CompressionResult) :
  compress_pdf_pymupdf env self input_path output_path w = (w1, Ok r) ->
  (success r = true ->
     exists si so,
       fs w1 !! input_path = Some si
       /\ fs w1 !! output_path = Some so
       /\ original_size r = megabytes (st_size si)
       /\ compressed_size r = megabytes (st_size so)
       /\ (original_size r * 1048576 == inject_Z (Z.of_N (st_size si)))%Q
       /\ (compressed_size r * 1048576 == inject_Z (Z.of_N (st_size so)))%Q
       /\ compression_ratio r
          = ((1 - compressed_size r / original_size r) * 100)%Q)
  /\ (success r = false ->
        compressed_size r = 0%Q
        /\ compression_ratio r = 0%Q
        /\ original_size r = match fs w1 !! input_path with
                             | Some st => megabytes (st_size st)
                             | None => 0%Q
                             end).
Proof.
  intros H.
  assert (Hmb : forall n, (megabytes n * 1048576 == inject_Z (Z.of_N n))%Q).
  { intros n. unfold megabytes. field. }
  apply worker_result_inv in H as [(si & so & Hi & Ho & _ & _ & ->)|(e & ->)].
  - split; [|discriminate]. intros _. exists si, so. cbn.
    repeat split; auto.
  - split; [discriminate|]. intros _. repeat split.
Qed.

Lemma result_records_megabytes_witness :
  exists w1 r,
    compress_pdf_pymupdf Sample.modules Sample.self
      ["papers"; "a.pdf"] ["out"; "a.pdf"] Sample.start = (w1, Ok r)
    /\ success r = true
    /\ exists si so,
         fs w1 !! ["papers"; "a.pdf"] = Some si
         /\ fs w1 !! ["out"; "a.pdf"] = Some so
         /\ original_size r = megabytes (st_size si)
         /\ compressed_size r = megabytes (st_size so)
         /\ (original_size r * 1048576 == inject_Z (Z.of_N (st_size si)))%Q
         /\ (compressed_size r * 1048576 == inject_Z (Z.of_N (st_size so)))%Q
         /\ compression_ratio r
            = ((1 - compressed_size r / original_size r) * 100)%Q.
Proof.
  eexists _, _. split; [vm_compute; reflexivity|]. split; [reflexivity|].
  eapply (proj1 (result_records_megabytes Sample.modules Sample.self
                   ["papers"; "a.pdf"] ["out"; "a.pdf"] Sample.start _ _ _)).
  reflexivity.
  Unshelve. vm_compute. reflexivity.
Defined.

(** * Further properties *)

(** ** The listing and the output paths *)








(** X10. Two different files of the listing are saved to two different paths,
    and when the output directory is not the input directory no file of the
    listing is a path that a task saves to. *)
Theorem output_paths_are_distinct (self : PDFCompressorPython) (m : FS) (p q : Path) :
  p ∈ glob_pdf (input_dir self) m ->
  q ∈ glob_pdf (input_dir self) m ->
  (output_file self p = output_file self q -> p = q)
  /\ (output_dir self <> input_dir self -> output_file self p <> q)
  /\ (output_dir self = input_dir self -> output_file self p = p).
Proof.
  intros Hp Hq.
  apply glob_pdf_spec in Hp as (_ & Hp & _).
  apply glob_pdf_spec in Hq as (_ & Hq & _).
  unfold output_file, joinpath in *. split; [|split].
  - intros H. apply app_inj_tail in H as [_ H].
    rewrite Hp, Hq, H. reflexivity.
  - intros Hne H. rewrite Hq in H. apply app_inj_tail in H as [H _]. contradiction.
  - intros ->. symmetry. exact Hp.
Qed.

Lemma output_paths_are_distinct_witness :
  (output_file Sample.self ["papers"; "a.pdf"] = output_file Sample.self ["papers"; "b.pdf"]
   -> ["papers"; "a.pdf"] = ["papers"; "b.pdf"])
  /\ (output_dir Sample.self <> input_dir Sample.self ->
      output_file Sample.self ["papers"; "a.pdf"] <> ["papers"; "b.pdf"])
  /\ (output_dir Sample.self = input_dir Sample.self ->
      output_file Sample.self ["papers"; "a.pdf"] = ["papers"; "a.pdf"]).
Proof.
  apply (output_paths_are_distinct Sample.self Sample.papers).
  - vm_compute. right. left.
  - vm_compute. left.
Defined.

(** ** The constructor *)

Lemma mkdir_exist_ok_cases (p : Path) (w w1 : World) (res : outcome unit) :
  mkdir_exist_ok p w = (w1, res) ->
  (res = Ok tt /\ w1 = w
   /\ (p = [] \/ exists st, fs w !! p = Some st /\ is_dir st = true))
  \/ (res = Ok tt /\ p <> [] /\ fs w !! p = None
      /\ w1 = mkWorld (<[p := mkStat true 0]> (fs w)) (log w) (calls w))
  \/ (exists e, res = Raise e /\ w1 = w /\ p <> []
      /\ ((exc_kind e = FileExistsError
           /\ exists st, fs w !! p = Some st /\ is_dir st = false)
          \/ (exc_kind e = NotADirectoryError /\ fs w !! p = None
              /\ exists st, fs w !! parent p = Some st /\ is_dir st = false)
          \/ (exc_kind e = FileNotFoundError /\ fs w !! p = None
              /\ parent p <> [] /\ fs w !! parent p = None))).
Proof.
  unfold mkdir_exist_ok. intros H.
  destruct p as [|c p]; [injection H as <- <-; left; auto|].
  destruct (fs w !! (c :: p)) as [st|] eqn:Hp.
  - destruct (is_dir st) eqn:Hd; injection H as <- <-.
    + left. eauto 8.
    + right. right. eexists. repeat split; [discriminate|]. left. eauto.
  - destruct (parent (c :: p)) as [|c' p'] eqn:Hpar.
    + injection H as <- <-. right. left. repeat split. discriminate.
    + destruct (fs w !! (c' :: p')) as [st|] eqn:Hpp.
      * destruct (is_dir st) eqn:Hd; injection H as <- <-.
        -- right. left. repeat split. discriminate.
        -- right. right. eexists. repeat split; [discriminate|].
           right. left. eauto.
      * injection H as <- <-. right. right. eexists.
        repeat split; [discriminate|]. right. right. repeat split. discriminate.
Qed.

(** X1. When [__init__] succeeds, the output directory is there, every entry
    that was there before is kept as it was, nothing is logged and the library
    is not called; constructing the compressor again changes nothing. *)
Theorem init_creates_output_dir_once
    (input_dir output_dir : Path) (image_quality image_dpi : Z)
    (w w1 : World) (self : PDFCompressorPython) :
  init input_dir output_dir image_quality image_dpi w = (w1, Ok self) ->
  self = mkCompressor input_dir output_dir image_quality image_dpi
  /\ (output_dir <> [] ->
      exists st, fs w1 !! output_dir = Some st /\ is_dir st = true)
  /\ (forall p st, fs w !! p = Some st -> fs w1 !! p = Some st)
  /\ (forall p, p <> output_dir -> fs w1 !! p = fs w !! p)
  /\ log w1 = log w /\ calls w1 = calls w
  /\ init input_dir output_dir image_quality image_dpi w1 = (w1, Ok self).
Proof.
  unfold init, bind, ret. intros H.
  destruct (mkdir_exist_ok output_dir w) as [w0 [[]|e]] eqn:Hmk; [|discriminate].
  injection H as <- <-.
  apply mkdir_exist_ok_cases in Hmk
    as [(_ & -> & Hdir)|[(_ & Hne & Hnone & ->)|(e & He & _)]]; [| |discriminate].
  - split; [reflexivity|]. split.
    { intros Hne. destruct Hdir as [->|Hdir]; [contradiction|exact Hdir]. }
    split; [auto|]. split; [auto|]. split; [reflexivity|]. split; [reflexivity|].
    destruct Hdir as [->|(st & Hst & Hd)]; [reflexivity|].
    unfold mkdir_exist_ok. destruct output_dir; [reflexivity|].
    rewrite Hst, Hd. reflexivity.
  - cbn [fs log calls]. split; [reflexivity|]. split.
    { intros _. exists (mkStat true 0). rewrite lookup_insert_eq. auto. }
    split.
    { intros p st Hp. rewrite lookup_insert_ne; [exact Hp|]. congruence. }
    split.
    { intros p Hp. rewrite lookup_insert_ne; [reflexivity|]. congruence. }
    split; [reflexivity|]. split; [reflexivity|].
    unfold mkdir_exist_ok. destruct output_dir; [contradiction|].
    cbn [fs]. rewrite lookup_insert_eq. reflexivity.
Qed.

Lemma init_creates_output_dir_once_witness :
  exists w1,
    init ["papers"] ["out"] 50 150 Sample.start = (w1, Ok Sample.self)
    /\ Sample.papers !! ["out"] = None
    /\ fs w1 !! ["out"] = Some (mkStat true 0)
    /\ fs w1 !! ["papers"; "a.pdf"] = Some (mkStat false 2097152)
    /\ init ["papers"] ["out"] 50 150 w1 = (w1, Ok Sample.self).
Proof.
  eexists. split; [vm_compute; reflexivity|].
  split; [vm_compute; reflexivity|]. split; [vm_compute; reflexivity|].
  split; [vm_compute; reflexivity|].
  eapply (init_creates_output_dir_once ["papers"] ["out"] 50 150 Sample.start).
  vm_compute. reflexivity.
Defined.

(** X2. When [__init__] fails (the output path is taken by a file, or its
    parent is missing or is a file) it leaves the world as it was, and the
    exception reaches the top level: [main] logs nothing, lists nothing, calls
    the library for nothing, and the exit status is 1. *)
Theorem init_failure_stops_main
    (env : Modules) (args : Args) (sched : list nat) (w w1 : World) (e : PyExc) :
  init (arg_input_dir args) (arg_output_dir args)
       (arg_image_quality args) (arg_image_dpi args) w = (w1, Raise e) ->
  w1 = w
  /\ main env args sched w = (w, Raise e)
  /\ exit_status (main env args sched w) = 1%Z
  /\ ((exc_kind e = FileExistsError
       /\ exists st, fs w !! arg_output_dir args = Some st /\ is_dir st = false)
      \/ (exc_kind e = NotADirectoryError
          /\ exists st, fs w !! parent (arg_output_dir args) = Some st
                        /\ is_dir st = false)
      \/ (exc_kind e = FileNotFoundError
          /\ fs w !! parent (arg_output_dir args) = None)).
Proof.
  intros H.
  assert (Hmain : main env args sched w = (w1, Raise e)).
  { unfold main. unfold bind at 1. rewrite H. reflexivity. }
  unfold init, bind, ret in H.
  destruct (mkdir_exist_ok (arg_output_dir args) w) as [w0 [[]|e0]] eqn:Hmk;
    [discriminate|].
  injection H as <- <-.
  apply mkdir_exist_ok_cases in Hmk
    as [(? & _)|[(? & _)|(e & He & -> & _ & Hwhy)]]; [discriminate|discriminate|].
  injection He as ->.
  split; [reflexivity|]. split; [exact Hmain|].
  split; [rewrite Hmain; reflexivity|].
  destruct Hwhy as [(Hk & Hst)|[(Hk & _ & Hst)|(Hk & _ & _ & Hst)]]; auto.
Qed.

Lemma init_failure_stops_main_witness :
  exists e,
    init ["papers"] ["out"] 50 150 Cases.start_out_is_a_file
      = (Cases.start_out_is_a_file, Raise e)
    /\ exc_kind e = FileExistsError
    /\ main Sample.modules Sample.args [] Cases.start_out_is_a_file
       = (Cases.start_out_is_a_file, Raise e)
    /\ exit_status (main Sample.modules Sample.args [] Cases.start_out_is_a_file) = 1%Z.
Proof.
  assert (H : init (arg_input_dir Sample.args) (arg_output_dir Sample.args)
                (arg_image_quality Sample.args) (arg_image_dpi Sample.args)
                Cases.start_out_is_a_file
              = (Cases.start_out_is_a_file,
                 Raise (mkExc FileExistsError "File exists")))
    by (vm_compute; reflexivity).
  destruct (init_failure_stops_main Sample.modules Sample.args []
              Cases.start_out_is_a_file _ _ H) as (_ & Hmain & Hexit & _).
  eexists. split; [exact H|]. split; [reflexivity|]. split; [exact Hmain|exact Hexit].
Defined.

(** ** The number of workers *)



(** ** One task *)

Lemma delegated_call_without_fitz (env : Modules) (input_path output_path : Path)
    (w : World) :
  PYMUPDF_AVAILABLE env = false ->
  delegated_call env input_path output_path w
    = (w, Raise (mkExc NameError "name 'fitz' is not defined")).
Proof.
  intros H. unfold delegated_call, bind, fitz_open_call. rewrite H. reflexivity.
Qed.

(** How far the three calls of lines 88-98 get. *)
Lemma delegated_call_trace (env : Modules) (input_path output_path : Path)
    (w w1 : World) (res : outcome unit) :
  PYMUPDF_AVAILABLE env = true ->
  delegated_call env input_path output_path w = (w1, res) ->
  log w1 = log w
  /\ ((exists e,
         fitz_open (fitz env) input_path (fs w) = Raise e
         /\ res = Raise e /\ fs w1 = fs w
         /\ calls w1 = (calls w ++ [CallOpen input_path])%list)
      \/ (exists d e,
            fitz_open (fitz env) input_path (fs w) = Ok d
            /\ doc_save (fitz env) d output_path save_options (fs w) = (fs w1, Raise e)
            /\ res = Raise e
            /\ calls w1 = (calls w ++ [CallOpen input_path;
                                       CallSave output_path save_options])%list)
      \/ (exists d,
            fitz_open (fitz env) input_path (fs w) = Ok d
            /\ doc_save (fitz env) d output_path save_options (fs w) = (fs w1, Ok tt)
            /\ res = doc_close (fitz env) d
            /\ calls w1 = (calls w ++ task_calls input_path output_path)%list)).
Proof.
  intros Hmu. unfold delegated_call, fitz_open_call. rewrite Hmu.
  unfold bind at 1. unfold bind at 1. unfold record_call at 1. cbn [fs log calls].
  destruct (fitz_open (fitz env) input_path (fs w)) as [d|e] eqn:Hopen.
  2:{ intros H. injection H as <- <-. split; [reflexivity|]. left. eauto. }
  unfold bind at 1, doc_save_call. unfold bind at 1. unfold record_call at 1.
  cbn [fs log calls].
  destruct (doc_save (fitz env) d output_path save_options (fs w)) as [fs' [[]|e]] eqn:Hsave.
  2:{ intros H. injection H as <- <-. split; [reflexivity|]. right. left.
      exists d, e. cbn [fs calls]. rewrite <- app_assoc. auto. }
  unfold doc_close_call, bind, record_call, lift. cbn [fs log calls].
  intros H. injection H as <- <-. split; [reflexivity|]. right. right.
  exists d. cbn [fs calls]. unfold task_calls. rewrite <- !app_assoc. auto.
Qed.

Lemma delegated_call_log (env : Modules) (input_path output_path : Path)
    (w w1 : World) (res : outcome unit) :
  delegated_call env input_path output_path w = (w1, res) -> log w1 = log w.
Proof.
  intros H. destruct (PYMUPDF_AVAILABLE env) eqn:Hmu.
  - eapply delegated_call_trace; eassumption.
  - rewrite delegated_call_without_fitz in H by assumption.
    injection H as <- _. reflexivity.
Qed.

(** The world a task leaves: that of the delegated call, with one more log
    line when the task failed. *)
Lemma worker_world (env : Modules) (self : PDFCompressorPython)
    (input_path output_path : Path) (w w' : World) (r : CompressionResult) :
  compress_pdf_pymupdf env self input_path output_path w = (w', Ok r) ->
  exists w0 res,
    delegated_call env input_path output_path w = (w0, res)
    /\ fs w' = fs w0 /\ calls w' = calls w0
    /\ ((success r = true /\ res = Ok tt /\ error r = None /\ log w' = log w0)
        \/ (success r = false
            /\ exists msg,
                 error r = Some msg
                 /\ log w' = (log w0 ++ [(ERROR, MsgErrorCompressing input_path msg)])%list)).
Proof.
  intros H.
  destruct (delegated_call env input_path output_path w) as [w0 res] eqn:Hcall.
  exists w0, res. split; [reflexivity|].
  assert (Hfail : forall e,
             compress_pdf_pymupdf env self input_path output_path w
             = (logged w0 (ERROR, MsgErrorCompressing input_path (str e)),
                Ok (failure_result (fs w0) input_path e)) ->
             fs w' = fs w0 /\ calls w' = calls w0
             /\ ((success r = true /\ res = Ok tt /\ error r = None /\ log w' = log w0)
                 \/ (success r = false
                     /\ exists msg,
                          error r = Some msg
                          /\ log w' = (log w0 ++ [(ERROR, MsgErrorCompressing input_path msg)])%list))).
  { intros e E. rewrite E in H. injection H as <- <-.
    split; [reflexivity|]. split; [reflexivity|]. right.
    split; [reflexivity|]. exists (str e). auto. }
  destruct res as [[]|e].
  2:{ apply (Hfail e), worker_on_failure, Hcall. }
  destruct (fs w0 !! input_path) as [si|] eqn:Hi.
  2:{ destruct (get_file_size_none _ _ Hi) as [e He].
      apply (Hfail e), worker_handles.
      unfold bind at 1. rewrite Hcall. unfold bind at 1. rewrite He. reflexivity. }
  destruct (fs w0 !! output_path) as [so|] eqn:Ho.
  2:{ destruct (get_file_size_none _ _ Ho) as [e He].
      apply (Hfail e), worker_handles.
      unfold bind at 1. rewrite Hcall.
      unfold bind at 1. rewrite (get_file_size_some _ _ _ Hi).
      unfold bind at 1. rewrite He. reflexivity. }
  destruct (decide (st_size si = 0%N)) as [Hz|Hnz].
  - destruct (truediv_zero (megabytes (st_size so)) (megabytes (st_size si)))
      as (e & He & _).
    { rewrite Hz. reflexivity. }
    apply (Hfail e), worker_handles.
    unfold bind at 1. rewrite Hcall.
    unfold bind at 1. rewrite (get_file_size_some _ _ _ Hi).
    unfold bind at 1. rewrite (get_file_size_some _ _ _ Ho).
    unfold bind at 1, lift. rewrite He. reflexivity.
  - rewrite (worker_on_success env self _ _ _ _ si so Hcall Hi Ho Hnz) in H.
    injection H as <- <-. split; [reflexivity|]. split; [reflexivity|].
    left. auto.
Qed.

(** X4. A task reports success exactly when the three library calls went
    through and, after them, the input and the output both exist and the input
    is not empty; in every other case it reports a failure. *)
Theorem success_iff_saved_and_measured
    (env : Modules) (self : PDFCompressorPython)
    (input_path output_path : Path) (w w' : World) (r : CompressionResult) :
  compress_pdf_pymupdf env self input_path output_path w = (w', Ok r) ->
  (success r = true <->
   exists si so,
     delegated_call env input_path output_path w = (w', Ok tt)
     /\ fs w' !! input_path = Some si
     /\ fs w' !! output_path = Some so
     /\ st_size si <> 0%N).
Proof.
  intros H. split.
  - intros Hs.
    apply worker_result_inv in H as [(si & so & Hi & Ho & Hnz & Hcall & _)|(e & ->)];
      [|discriminate].
    exists si, so. auto.
  - intros (si & so & Hcall & Hi & Ho & Hnz).
    rewrite (worker_on_success env self _ _ _ _ si so Hcall Hi Ho Hnz) in H.
    injection H as <-. reflexivity.
Qed.

Lemma success_iff_saved_and_measured_witness :
  exists w' r,
    compress_pdf_pymupdf Sample.modules Sample.self
      ["papers"; "a.pdf"] ["out"; "a.pdf"] Sample.start = (w', Ok r)
    /\ (success r = true <->
        exists si so,
          delegated_call Sample.modules ["papers"; "a.pdf"] ["out"; "a.pdf"] Sample.start
            = (w', Ok tt)
          /\ fs w' !! ["papers"; "a.pdf"] = Some si
          /\ fs w' !! ["out"; "a.pdf"] = Some so
          /\ st_size si <> 0%N)
    /\ success r = true.
Proof.
  eexists _, _. split; [vm_compute; reflexivity|]. split; [|reflexivity].
  apply (success_iff_saved_and_measured Sample.modules Sample.self
           ["papers"; "a.pdf"] ["out"; "a.pdf"] Sample.start).
  vm_compute. reflexivity.
Defined.

(** X5. An empty input that the library does save is reported as a failure:
    the ratio of line 103 divides by the original size, the
    [ZeroDivisionError] is caught, and the result carries its message with
    sizes and ratio 0, while the output file that was written stays where it
    is. *)
Theorem empty_input_is_a_failure
    (env : Modules) (self : PDFCompressorPython)
    (input_path output_path : Path) (w w1 : World) (si so : Stat) :
  delegated_call env input_path output_path w = (w1, Ok tt) ->
  fs w1 !! input_path = Some si ->
  fs w1 !! output_path = Some so ->
  st_size si = 0%N ->
  exists w' r,
    compress_pdf_pymupdf env self input_path output_path w = (w', Ok r)
    /\ success r = false
    /\ error r = Some "float division by zero"
    /\ (original_size r == 0)%Q
    /\ compressed_size r = 0%Q /\ compression_ratio r = 0%Q
    /\ fs w' !! output_path = Some so
    /\ log w' = (log w ++ [(ERROR, MsgErrorCompressing input_path
                                    "float division by zero")])%list.
Proof.
  intros Hcall Hi Ho Hz.
  pose proof (delegated_call_log _ _ _ _ _ _ Hcall) as Hlog.
  eexists _, _. split.
  - apply worker_handles.
    unfold bind at 1. rewrite Hcall.
    unfold bind at 1. rewrite (get_file_size_some _ _ _ Hi).
    unfold bind at 1. rewrite (get_file_size_some _ _ _ Ho).
    unfold bind at 1, lift, truediv. rewrite Hz. reflexivity.
  - unfold failure_result, logged. cbn. rewrite Hi, Hz, Hlog. repeat split; auto.
Qed.

Lemma empty_input_is_a_failure_witness :
  exists w' r,
    compress_pdf_pymupdf Cases.modules_copying Sample.self
      ["papers"; "e.pdf"] ["out"; "e.pdf"] Cases.start_with_empty = (w', Ok r)
    /\ success r = false
    /\ error r = Some "float division by zero"
    /\ (original_size r == 0)%Q
    /\ compressed_size r = 0%Q /\ compression_ratio r = 0%Q
    /\ fs w' !! ["out"; "e.pdf"] = Some (mkStat false 0)
    /\ log w' = (log Cases.start_with_empty
                 ++ [(ERROR, MsgErrorCompressing ["papers"; "e.pdf"]
                               "float division by zero")])%list.
Proof.
  eapply (empty_input_is_a_failure Cases.modules_copying Sample.self
            ["papers"; "e.pdf"] ["out"; "e.pdf"] Cases.start_with_empty
            _ (mkStat false 0) (mkStat false 0)).
  - vm_compute. reflexivity.
  - vm_compute. reflexivity.
  - vm_compute. reflexivity.
  - reflexivity.
Defined.

(** X7. A task writes to the log only when it fails, and then exactly one
    line, at level ERROR, with the input path and the description that the
    result carries; a successful task logs nothing and carries no error. *)
Theorem worker_logs_iff_failure
    (env : Modules) (self : PDFCompressorPython)
    (input_path output_path : Path) (w w' : World) (r : CompressionResult) :
  compress_pdf_pymupdf env self input_path output_path w = (w', Ok r) ->
  (success r = true -> log w' = log w /\ error r = None)
  /\ (success r = false ->
      exists msg,
        error r = Some msg
        /\ log w' = (log w ++ [(ERROR, MsgErrorCompressing input_path msg)])%list).
Proof.
  intros H.
  apply worker_world in H as (w0 & res & Hcall & _ & _ & Hcases).
  apply delegated_call_log in Hcall.
  destruct Hcases as [(Hs & _ & He & Hlog)|(Hs & msg & He & Hlog)]; rewrite Hs.
  - split; [intros _; split; congruence|discriminate].
  - split; [discriminate|]. intros _. exists msg. split; congruence.
Qed.

Lemma worker_logs_iff_failure_witness :
  exists w' r,
    compress_pdf_pymupdf Sample.modules Sample.self
      ["papers"; "b.pdf"] ["out"; "b.pdf"] Sample.start = (w', Ok r)
    /\ success r = false
    /\ exists msg,
         error r = Some msg
         /\ log w' = (log Sample.start
                      ++ [(ERROR, MsgErrorCompressing ["papers"; "b.pdf"] msg)])%list.
Proof.
  eexists _, _. split; [vm_compute; reflexivity|]. split; [reflexivity|].
  eapply (proj2 (worker_logs_iff_failure Sample.modules Sample.self
                   ["papers"; "b.pdf"] ["out"; "b.pdf"] Sample.start _ _ _)).
  reflexivity.
  Unshelve. vm_compute. reflexivity.
Defined.

(** X8. With PyMuPDF imported, a task calls the library in this order and no
    further: [fitz.open] on the input, [doc.save] on the output with the
    options of lines 93-96, [doc.close].  The sequence stops at the call that
    raises, so the document is not closed when [doc.save] fails, and the file
    system is untouched when [fitz.open] fails; a task that reports success
    made all three calls. *)
Theorem worker_call_sequence
    (env : Modules) (self : PDFCompressorPython)
    (input_path output_path : Path) (w w' : World) (r : CompressionResult) :
  PYMUPDF_AVAILABLE env = true ->
  compress_pdf_pymupdf env self input_path output_path w = (w', Ok r) ->
  (exists e,
     fitz_open (fitz env) input_path (fs w) = Raise e
     /\ calls w' = (calls w ++ [CallOpen input_path])%list
     /\ fs w' = fs w /\ success r = false /\ error r = Some (str e))
  \/ (exists d e,
        fitz_open (fitz env) input_path (fs w) = Ok d
        /\ snd (doc_save (fitz env) d output_path save_options (fs w)) = Raise e
        /\ calls w' = (calls w ++ [CallOpen input_path;
                                   CallSave output_path save_options])%list
        /\ success r = false /\ error r = Some (str e))
  \/ (exists d,
        fitz_open (fitz env) input_path (fs w) = Ok d
        /\ doc_save (fitz env) d output_path save_options (fs w) = (fs w', Ok tt)
        /\ calls w' = (calls w ++ task_calls input_path output_path)%list).
Proof.
  intros Hmu H.
  destruct (delegated_call env input_path output_path w) as [w0 res] eqn:Hcall.
  pose proof (delegated_call_trace _ _ _ _ _ _ Hmu Hcall) as (_ & Htrace).
  destruct Htrace as [(e & Hopen & -> & Hfs & Hcalls)
                     |[(d & e & Hopen & Hsave & -> & Hcalls)
                      |(d & Hopen & Hsave & Hres & Hcalls)]].
  - rewrite (worker_on_failure env self _ _ _ _ _ Hcall) in H.
    injection H as <- <-. left. exists e. auto.
  - rewrite (worker_on_failure env self _ _ _ _ _ Hcall) in H.
    injection H as <- <-. right. left. exists d, e. rewrite Hsave. auto.
  - apply worker_world in H as (w0' & res' & Hcall' & Hfs & Hc & _).
    rewrite Hcall in Hcall'. injection Hcall' as <- <-.
    right. right. exists d. rewrite Hfs, Hc. auto.
Qed.

Lemma worker_call_sequence_witness :
  exists w' r,
    compress_pdf_pymupdf Cases.modules_read_only Sample.self
      ["papers"; "a.pdf"] ["out"; "a.pdf"] Sample.start = (w', Ok r)
    /\ calls w' = [CallOpen ["papers"; "a.pdf"];
                   CallSave ["out"; "a.pdf"] save_options]
    /\ error r = Some "cannot write"
    /\ ((exists e,
           fitz_open Cases.read_only ["papers"; "a.pdf"] Sample.papers = Raise e
           /\ calls w' = [CallOpen ["papers"; "a.pdf"]]
           /\ fs w' = Sample.papers /\ success r = false /\ error r = Some (str e))
        \/ (exists d e,
              fitz_open Cases.read_only ["papers"; "a.pdf"] Sample.papers = Ok d
              /\ snd (doc_save Cases.read_only d ["out"; "a.pdf"] save_options
                        Sample.papers) = Raise e
              /\ calls w' = [CallOpen ["papers"; "a.pdf"];
                             CallSave ["out"; "a.pdf"] save_options]
              /\ success r = false /\ error r = Some (str e))
        \/ (exists d,
              fitz_open Cases.read_only ["papers"; "a.pdf"] Sample.papers = Ok d
              /\ doc_save Cases.read_only d ["out"; "a.pdf"] save_options Sample.papers
                 = (fs w', Ok tt)
              /\ calls w' = task_calls ["papers"; "a.pdf"] ["out"; "a.pdf"])).
Proof.
  eexists _, _. split; [vm_compute; reflexivity|].
  split; [reflexivity|]. split; [reflexivity|].
  apply (worker_call_sequence Cases.modules_read_only Sample.self
           ["papers"; "a.pdf"] ["out"; "a.pdf"] Sample.start _ _ eq_refl).
  vm_compute. reflexivity.
Defined.

(** ** The ratio of a result *)

Lemma megabytes_ratio (si so : N) :
  si <> 0%N ->
  ((1 - megabytes so / megabytes si) * 100 * inject_Z (Z.of_N si)
   == (inject_Z (Z.of_N si) - inject_Z (Z.of_N so)) * 100)%Q.
Proof.
  intros H. unfold megabytes. field.
  intros E. apply H. unfold Qeq in E. simpl in E. lia.
Qed.

Lemma ratio_sign (r a b : Q) :
  (0 < a)%Q -> (0 <= b)%Q -> (r * a == (a - b) * 100)%Q ->
  (r <= 100)%Q /\ ((r < 0)%Q <-> (a < b)%Q)
  /\ ((r == 0)%Q <-> (b == a)%Q) /\ ((r == 100)%Q <-> (b == 0)%Q).
Proof.
  intros Ha Hb E.
  assert (Hnz : ~ (a == 0)%Q) by lra.
  split; [|split; [|split]].
  - apply (Qmult_le_r _ _ a Ha). rewrite E. lra.
  - rewrite <- (Qmult_lt_r _ _ a Ha), E. split; intros H; lra.
  - rewrite <- (Qmult_inj_r _ _ a Hnz), E. split; intros H; lra.
  - rewrite <- (Qmult_inj_r _ _ a Hnz), E. split; intros H; lra.
Qed.

Lemma inject_N_lt (a b : N) :
  (inject_Z (Z.of_N a) < inject_Z (Z.of_N b))%Q <-> (a < b)%N.
Proof. rewrite <- Zlt_Qlt. lia. Qed.

Lemma inject_N_eq (a b : N) :
  (inject_Z (Z.of_N a) == inject_Z (Z.of_N b))%Q <-> a = b.
Proof. rewrite inject_Z_injective. lia. Qed.

(** X6. The compression ratio of a successful result is at most 100; it is
    negative exactly when the output is larger than the input, 0 exactly when
    both have the same size, and 100 exactly when the output is empty. *)
Theorem ratio_of_a_success
    (env : Modules) (self : PDFCompressorPython)
    (input_path output_path : Path) (w w' : World) (r : CompressionResult) :
  compress_pdf_pymupdf env self input_path output_path w = (w', Ok r) ->
  success r = true ->
  exists si so,
    fs w' !! input_path = Some si
    /\ fs w' !! output_path = Some so
    /\ (compression_ratio r <= 100)%Q
    /\ ((compression_ratio r < 0)%Q <-> (st_size si < st_size so)%N)
    /\ ((compression_ratio r == 0)%Q <-> st_size so = st_size si)
    /\ ((compression_ratio r == 100)%Q <-> st_size so = 0%N).
Proof.
  intros H Hs.
  apply worker_result_inv in H as [(si & so & Hi & Ho & Hnz & _ & ->)|(e & ->)];
    [|discriminate].
  exists si, so. split; [exact Hi|]. split; [exact Ho|].
  cbn [compression_ratio].
  assert (Ha : (0 < inject_Z (Z.of_N (st_size si)))%Q).
  { change 0%Q with (inject_Z (Z.of_N 0)). apply inject_N_lt. lia. }
  assert (Hb : (0 <= inject_Z (Z.of_N (st_size so)))%Q).
  { change 0%Q with (inject_Z (Z.of_N 0)). rewrite <- Zle_Qle. lia. }
  destruct (ratio_sign _ _ _ Ha Hb (megabytes_ratio _ (st_size so) Hnz))
    as (H1 & H2 & H3 & H4).
  split; [exact H1|]. split; [|split].
  - rewrite H2. apply inject_N_lt.
  - rewrite H3. apply inject_N_eq.
  - rewrite H4. apply (inject_N_eq _ 0).
Qed.

Lemma ratio_of_a_success_witness :
  exists w' r,
    compress_pdf_pymupdf Sample.modules Sample.self
      ["papers"; "a.pdf"] ["out"; "a.pdf"] Sample.start = (w', Ok r)
    /\ (compression_ratio r == 50)%Q
    /\ exists si so,
         fs w' !! ["papers"; "a.pdf"] = Some si
         /\ fs w' !! ["out"; "a.pdf"] = Some so
         /\ (compression_ratio r <= 100)%Q
         /\ ((compression_ratio r < 0)%Q <-> (st_size si < st_size so)%N)
         /\ ((compression_ratio r == 0)%Q <-> st_size so = st_size si)
         /\ ((compression_ratio r == 100)%Q <-> st_size so = 0%N).
Proof.
  eexists _, _. split; [vm_compute; reflexivity|]. split; [reflexivity|].
  eapply (ratio_of_a_success Sample.modules Sample.self
            ["papers"; "a.pdf"] ["out"; "a.pdf"] Sample.start).
  - vm_compute. reflexivity.
  - reflexivity.
Defined.

(** ** The whole run, once more *)

Lemma collect_loop_world (xs : list (Path * CompressionResult)) (t : Tally) (w : World) :
  for_loop (map done_future xs) collect t w
    = (mkWorld (fs w) (log w ++ map result_line xs) (calls w),
       Ok (fold_left tally_add xs t)).
Proof.
  revert t w. induction xs as [|x xs IH]; intros t w; cbn [map for_loop fold_left].
  - unfold ret. rewrite app_nil_r. destruct w; reflexivity.
  - assert (E : collect t (done_future x) w
                = (logged w (result_line x), Ok (tally_add t x))).
    { destruct x as [p r]. unfold collect, done_future, tally_add, result_line. simpl.
      unfold bind, future_result, lift. destruct (success r); reflexivity. }
    unfold bind. rewrite E, IH. unfold logged. cbn [fs log calls].
    rewrite <- app_assoc. reflexivity.
Qed.

(** The world at the end of a run that goes through. *)
Lemma compress_all_final_world (env : Modules) (self : PDFCompressorPython)
    (max_workers : Z) (sched : list nat) (w w' : World) (s : RunSummary)
    (seen : list (Path * CompressionResult)) :
  compress_all env self max_workers sched w = (w', Ok (Completed s seen)) ->
  exists xs w1,
    tasks_run env self (announced self w) (glob_pdf (input_dir self) (fs w)) xs w1
    /\ seen = as_completed sched xs
    /\ w' = mkWorld (fs w1) (log w1 ++ map result_line seen ++ summary_block s) (calls w1).
Proof.
  intros H.
  pose proof (compress_all_completed_inv _ _ _ _ _ _ _ _ H)
    as (Hmu & Hpil & Hfiles & Hmw & xs & w1 & Hrun & Hseen & Hs).
  exists xs, w1. split; [exact Hrun|]. split; [exact Hseen|].
  destruct (submit_loop env self (glob_pdf (input_dir self) (fs w)) [] (announced self w))
    as (xs' & w1' & Hrun' & Hsubmit).
  destruct (tasks_run_det _ _ _ _ _ _ _ _ Hrun Hrun') as [<- <-].
  revert H. unfold compress_all. rewrite Hmu, Hpil. cbn [negb].
  unfold bind at 1.
  unfold announced, logged in Hsubmit. cbn [fs log calls] in Hsubmit.
  destruct (glob_pdf (input_dir self) (fs w)) as [|p ps] eqn:Hglob; [congruence|].
  unfold bind at 1, logger at 1. unfold bind at 1, logger at 1.
  unfold bind at 1, logger at 1. cbn [fs log calls].
  unfold bind at 1, ThreadPoolExecutor.
  rewrite (proj2 (Z.leb_gt _ _) Hmw). cbn [ret].
  unfold bind at 1. rewrite Hsubmit.
  cbn [app]. rewrite as_completed_map, <- Hseen.
  unfold bind at 1. rewrite collect_loop_world.
  unfold bind at 1, lift at 1. rewrite overall_ok.
  unfold bind, logger, ret. cbn [fs log calls].
  intros H. injection H as <- _ _. subst s.
  unfold summary_block, summarize.
  cbn [files_processed successes failures total_original total_compressed
       overall_compression].
  rewrite <- !app_assoc. reflexivity.
Qed.

Lemma worker_fs_frame (env : Modules) (self : PDFCompressorPython)
    (input_path output_path : Path) (w w' : World) (r : CompressionResult) (q : Path) :
  writes_only_target (fitz env) ->
  compress_pdf_pymupdf env self input_path output_path w = (w', Ok r) ->
  q <> output_path ->
  fs w' !! q = fs w !! q.
Proof.
  intros Hframe H Hq.
  apply worker_world in H as (w0 & res & Hcall & -> & _ & _).
  destruct (PYMUPDF_AVAILABLE env) eqn:Hmu.
  - apply (delegated_call_trace _ _ _ _ _ _ Hmu) in Hcall as (_ & Htrace).
    destruct Htrace as [(e & _ & _ & -> & _)
                       |[(d & e & _ & Hsave & _)|(d & _ & Hsave & _)]];
      [reflexivity| |];
      rewrite <- (Hframe d output_path save_options (fs w) q Hq), Hsave; reflexivity.
  - rewrite delegated_call_without_fitz in Hcall by assumption.
    injection Hcall as <- _. reflexivity.
Qed.


Lemma worker_log_from_compress_all (env : Modules) (self : PDFCompressorPython)
    (input_path output_path : Path) (w w' : World) (r : CompressionResult) :
  compress_pdf_pymupdf env self input_path output_path w = (w', Ok r) ->
  List.filter from_compress_all (log w') = List.filter from_compress_all (log w).
Proof.
  intros H.
  apply worker_world in H as (w0 & res & Hcall & _ & _ & Hcases).
  apply delegated_call_log in Hcall.
  destruct Hcases as [(_ & _ & _ & ->)|(_ & msg & _ & ->)]; rewrite Hcall;
    [reflexivity|].
  rewrite List.filter_app. cbn. apply app_nil_r.
Qed.

Section TasksFacts.

Variable env : Modules.
Variable self : PDFCompressorPython.

Lemma tasks_run_frame w ps xs w1 (q : Path) :
  writes_only_target (fitz env) ->
  tasks_run env self w ps xs w1 ->
  (forall p, p ∈ ps -> q <> output_file self p) ->
  fs w1 !! q = fs w !! q.
Proof.
  intros Hframe Hrun. induction Hrun as [w|w wa wb p r ps xs E _ IH]; intros Hq.
  - reflexivity.
  - rewrite IH by (intros p' Hp'; apply Hq; right; exact Hp').
    apply (worker_fs_frame env self _ _ _ _ _ q Hframe E).
    apply Hq. left.
Qed.


Lemma tasks_run_log w ps xs w1 :
  tasks_run env self w ps xs w1 ->
  List.filter from_compress_all (log w1) = List.filter from_compress_all (log w).
Proof.
  induction 1 as [w|w wa wb p r ps xs E _ IH]; [reflexivity|].
  rewrite IH. apply (worker_log_from_compress_all env self _ _ _ _ _ E).
Qed.

(** What the worker returned for each file. *)
Lemma tasks_run_results w ps xs w1 :
  tasks_run env self w ps xs w1 ->
  Forall (fun x =>
            if success (snd x)
            then exists si so : N,
                   si <> 0%N
                   /\ original_size (snd x) = megabytes si
                   /\ compressed_size (snd x) = megabytes so
            else True) xs.
Proof.
  induction 1 as [w|w wa wb p r ps xs E _ IH]; constructor; [|exact IH].
  apply worker_result_inv in E as [(si & so & _ & _ & Hnz & _ & ->)|(e & ->)];
    cbn; eauto.
Qed.

End TasksFacts.

(** X11. The lines that [compress_all] itself logs in a run that goes through
    are, in this order: the three opening lines, one line per file in the
    order in which the results were handled (the file's name with its sizes
    and ratio, or with its error), and the summary block, whose numbers are
    those of the summary.  The library is not called and no file is written
    after the last task. *)
Theorem run_log_has_a_line_per_file
    (env : Modules) (self : PDFCompressorPython) (max_workers : Z)
    (sched : list nat) (w w' : World) (s : RunSummary)
    (seen : list (Path * CompressionResult)) :
  compress_all env self max_workers sched w = (w', Ok (Completed s seen)) ->
  List.filter from_compress_all (log w')
    = (List.filter from_compress_all (log w)
       ++ opening_lines self (files_processed s)
       ++ map result_line seen
       ++ summary_block s)%list
  /\ length (map result_line seen) = files_processed s
  /\ exists before, log w' = (before ++ summary_block s)%list.
Proof.
  intros H.
  pose proof (compress_all_final_world _ _ _ _ _ _ _ _ H)
    as (xs & w1 & Hrun & Hseen & ->).
  apply compress_all_completed_inv in H as (_ & _ & _ & _ & xs' & w1' & Hrun' & _ & Hs).
  destruct (tasks_run_det _ _ _ _ _ _ _ _ Hrun Hrun') as [<- <-].
  pose proof (tasks_run_files _ _ _ _ _ _ Hrun) as Hfiles.
  pose proof (tasks_run_log _ _ _ _ _ _ Hrun) as Hlog.
  cbn [log]. split; [|split].
  - rewrite !List.filter_app, Hlog.
    unfold announced, logged. cbn [log]. rewrite !List.filter_app.
    assert (Hres : forall l : list (Path * CompressionResult),
               List.filter from_compress_all (map result_line l) = map result_line l).
    { induction l as [|x l IH]; [reflexivity|].
      cbn [map List.filter]. rewrite IH.
      unfold result_line at 1. destruct (success (snd x)); reflexivity. }
    rewrite Hres, <- !app_assoc. subst s. reflexivity.
  - rewrite length_map, Hseen, Hs. cbn [summarize files_processed].
    rewrite <- Hfiles, length_map. apply Permutation_length, as_completed_perm.
  - eexists. rewrite app_assoc. reflexivity.
Qed.

Lemma run_log_has_a_line_per_file_witness :
  exists w' s seen,
    compress_all Sample.modules Sample.self 2 [1] Sample.start
      = (w', Ok (Completed s seen))
    /\ map result_line seen
       = [(INFO, MsgCompressed "a.pdf" (megabytes 2097152) (megabytes 1048576)
                   ((1 - megabytes 1048576 / megabytes 2097152) * 100)%Q);
          (ERROR, MsgFailed "b.pdf" (Some "cannot open broken document"))]
    /\ List.filter from_compress_all (log w')
       = (List.filter from_compress_all (log Sample.start)
          ++ opening_lines Sample.self (files_processed s)
          ++ map result_line seen
          ++ summary_block s)%list.
Proof.
  eexists _, _, _. split; [vm_compute; reflexivity|].
  split; [vm_compute; reflexivity|].
  eapply (run_log_has_a_line_per_file Sample.modules Sample.self 2 [1] Sample.start).
  vm_compute. reflexivity.
Defined.



(** X13. The originals are preserved: when [doc.save] writes nothing but the
    path it is given, a run changes no entry of the file system other than the
    output paths of the listed files; so when the output directory is not the
    input directory, every file of the listing is after the run what it was
    before. *)
Theorem originals_are_preserved
    (env : Modules) (self : PDFCompressorPython) (max_workers : Z)
    (sched : list nat) (w w' : World) (s : RunSummary)
    (seen : list (Path * CompressionResult)) :
  writes_only_target (fitz env) ->
  compress_all env self max_workers sched w = (w', Ok (Completed s seen)) ->
  (forall q,
     (forall p, p ∈ glob_pdf (input_dir self) (fs w) -> q <> output_file self p) ->
     fs w' !! q = fs w !! q)
  /\ (output_dir self <> input_dir self ->
      forall p, p ∈ glob_pdf (input_dir self) (fs w) -> fs w' !! p = fs w !! p).
Proof.
  intros Hframe H.
  pose proof (compress_all_final_world _ _ _ _ _ _ _ _ H)
    as (xs & w1 & Hrun & _ & ->).
  assert (Hother : forall q,
             (forall p, p ∈ glob_pdf (input_dir self) (fs w) -> q <> output_file self p) ->
             fs w1 !! q = fs w !! q).
  { intros q Hq. apply (tasks_run_frame _ _ _ _ _ _ q Hframe Hrun Hq). }
  split; [exact Hother|].
  intros Hne p Hp. apply Hother. intros p' Hp' Heq.
  apply glob_pdf_spec in Hp as (_ & Hp & _).
  rewrite Hp in Heq. unfold output_file, joinpath in Heq.
  apply app_inj_tail in Heq as [Heq _]. congruence.
Qed.

Lemma halving_writes_only_target : writes_only_target Sample.halving.
Proof.
  intros d p o m q Hq. cbn. rewrite lookup_insert_ne; [reflexivity|congruence].
Qed.

Lemma originals_are_preserved_witness :
  exists w' s seen,
    compress_all Sample.modules Sample.self 2 [1] Sample.start
      = (w', Ok (Completed s seen))
    /\ fs w' !! ["out"; "a.pdf"] = Some (mkStat false 1048576)
    /\ fs w' !! ["papers"; "a.pdf"] = Some (mkStat false 2097152)
    /\ (forall p, p ∈ glob_pdf (input_dir Sample.self) (fs Sample.start) ->
        fs w' !! p = fs Sample.start !! p).
Proof.
  eexists _, _, _. split; [vm_compute; reflexivity|].
  split; [vm_compute; reflexivity|]. split; [vm_compute; reflexivity|].
  refine (proj2 (originals_are_preserved Sample.modules Sample.self 2 [1]
                   Sample.start _ _ _ halving_writes_only_target _) _).
  - vm_compute. reflexivity.
  - vm_compute. discriminate.
Defined.

(** ** The totals *)

Lemma fold_Qplus_grows (l : list Q) (acc : Q) :
  Forall (fun x => 0 <= x)%Q l -> (acc <= fold_left Qplus l acc)%Q.
Proof.
  revert acc. induction l as [|x l IH]; intros acc Hl; simpl.
  - apply Qle_refl.
  - inversion Hl as [|? ? Hx Hl']; subst.
    apply Qle_trans with (acc + x)%Q; [lra|apply IH, Hl'].
Qed.

Lemma megabytes_nonneg (n : N) : (0 <= megabytes n)%Q.
Proof.
  unfold megabytes, Qle, Qdiv, Qmult, Qinv, inject_Z. simpl. lia.
Qed.

Lemma megabytes_pos (n : N) : n <> 0%N -> (0 < megabytes n)%Q.
Proof.
  intros H. unfold megabytes, Qlt, Qdiv, Qmult, Qinv, inject_Z. simpl. lia.
Qed.

(** X14. In a run that goes through, both totals are non-negative; the total
    original size is 0 exactly when no compression succeeded, and then the
    total compressed size is 0 too.  The overall reduction is at most 100, and
    it is negative exactly when the outputs of the successful files are larger
    in total than their inputs. *)
Theorem totals_and_overall_bounds
    (env : Modules) (self : PDFCompressorPython) (max_workers : Z)
    (sched : list nat) (w w' : World) (s : RunSummary)
    (seen : list (Path * CompressionResult)) :
  compress_all env self max_workers sched w = (w', Ok (Completed s seen)) ->
  (0 <= total_original s)%Q
  /\ (0 <= total_compressed s)%Q
  /\ (successes s = 0 -> total_original s = 0%Q /\ total_compressed s = 0%Q)
  /\ (successes s <> 0 -> (0 < total_original s)%Q)
  /\ (overall_compression s <= 100)%Q
  /\ ((overall_compression s < 0)%Q <-> (total_original s < total_compressed s)%Q).
Proof.
  intros H.
  apply compress_all_completed_inv in H as (_ & _ & _ & _ & xs & w1 & Hrun & Hseen & ->).
  pose proof (tasks_run_results _ _ _ _ _ _ Hrun) as Hres.
  rewrite <- (as_completed_perm sched xs), <- Hseen in Hres.
  cbn [summarize total_original total_compressed successes overall_compression].
  destruct (tally_totals seen tally0) as [Ho Hc].
  destruct (tally_counts seen tally0) as [Hn _].
  rewrite Ho, Hc, Hn. cbn [tally0 total_original_size total_compressed_size
                           successful_compressions]. clear Ho Hc Hn Hrun Hseen.
  set (good := List.filter (fun x => success (snd x)) seen).
  assert (Hgood : Forall (fun x => exists si so : N,
                            si <> 0%N
                            /\ original_size (snd x) = megabytes si
                            /\ compressed_size (snd x) = megabytes so) good).
  { apply Forall_forall. intros x Hx. apply list_elem_of_In, filter_In in Hx as [Hx Hs].
    rewrite Forall_forall in Hres. apply list_elem_of_In, Hres in Hx.
    rewrite Hs in Hx. exact Hx. }
  clearbody good. clear Hres.
  assert (Hto : (0 <= fold_left Qplus (map (fun x => original_size (snd x)) good) 0)%Q).
  { apply fold_Qplus_grows, Forall_fmap. eapply Forall_impl; [exact Hgood|].
    intros x (si & so & _ & Hx & _). cbn. rewrite Hx. apply megabytes_nonneg. }
  assert (Htc : (0 <= fold_left Qplus (map (fun x => compressed_size (snd x)) good) 0)%Q).
  { apply fold_Qplus_grows, Forall_fmap. eapply Forall_impl; [exact Hgood|].
    intros x (si & so & _ & _ & Hx). cbn. rewrite Hx. apply megabytes_nonneg. }
  assert (Hpos : good <> [] ->
                 (0 < fold_left Qplus (map (fun x => original_size (snd x)) good) 0)%Q).
  { destruct good as [|x good]; [congruence|]. intros _.
    inversion Hgood as [|? ? (si & so & Hnz & Hsi & _) Hrest]; subst.
    cbn [map fold_left].
    eapply Qlt_le_trans; [|apply fold_Qplus_grows, Forall_fmap].
    - rewrite Hsi. pose proof (megabytes_pos si Hnz). lra.
    - eapply Forall_impl; [exact Hrest|].
      intros y (si' & so' & _ & Hy & _). cbn. rewrite Hy. apply megabytes_nonneg. }
  split; [exact Hto|]. split; [exact Htc|]. split; [|split].
  - intros Hz. cbn in Hz. destruct good; [split; reflexivity|discriminate].
  - intros Hnz. apply Hpos. intros ->. apply Hnz. reflexivity.
  - unfold overall_value.
    destruct (Qgtb _ 0) eqn:Hgt.
    + apply Qgtb_true in Hgt.
      set (to := fold_left Qplus (map (fun x => original_size (snd x)) good) 0%Q) in *.
      set (tc := fold_left Qplus (map (fun x => compressed_size (snd x)) good) 0%Q) in *.
      assert (E : ((1 - tc / to) * 100 * to == (to - tc) * 100)%Q) by (field; lra).
      destruct (ratio_sign _ _ _ Hgt Htc E) as (H1 & H2 & _). auto.
    + apply Qgtb_false in Hgt.
      destruct good as [|x good].
      * split; [discriminate|]. cbn. split; intros Habs; inversion Habs.
      * exfalso. assert (Hp := Hpos ltac:(discriminate)). lra.
Qed.

Lemma totals_and_overall_bounds_witness :
  exists w' s seen,
    compress_all Sample.modules Sample.self 2 [1] Sample.start
      = (w', Ok (Completed s seen))
    /\ (total_original s == 2)%Q /\ (total_compressed s == 1)%Q
    /\ (overall_compression s == 50)%Q
    /\ (overall_compression s <= 100)%Q.
Proof.
  eexists _, _, _. split; [vm_compute; reflexivity|].
  split; [reflexivity|]. split; [reflexivity|]. split; [reflexivity|].
  eapply (totals_and_overall_bounds Sample.modules Sample.self 2 [1] Sample.start).
  vm_compute. reflexivity.
Defined.

(** ** What the library is never asked *)

Lemma worker_calls_within (env : Modules) (self : PDFCompressorPython)
    (input_path output_path : Path) (w w' : World) (r : CompressionResult) :
  PYMUPDF_AVAILABLE env = true ->
  compress_pdf_pymupdf env self input_path output_path w = (w', Ok r) ->
  exists l,
    calls w' = (calls w ++ l)%list
    /\ forall c, c ∈ l -> c ∈ task_calls input_path output_path.
Proof.
  intros Hmu H.
  apply worker_world in H as (w0 & res & Hcall & _ & -> & _).
  apply (delegated_call_trace _ _ _ _ _ _ Hmu) in Hcall as (_ & Htrace).
  unfold task_calls in *.
  destruct Htrace as [(e & _ & _ & _ & ->)
                     |[(d & e & _ & _ & _ & ->)|(d & _ & _ & _ & ->)]];
    eexists; (split; [reflexivity|]); intros c Hc;
    apply list_elem_of_In; apply list_elem_of_In in Hc; simpl in *; tauto.
Qed.

Lemma tasks_run_calls_within (env : Modules) (self : PDFCompressorPython)
    w ps xs w1 :
  PYMUPDF_AVAILABLE env = true ->
  tasks_run env self w ps xs w1 ->
  exists l,
    calls w1 = (calls w ++ l)%list
    /\ forall c, c ∈ l ->
         exists p, p ∈ ps /\ c ∈ task_calls p (output_file self p).
Proof.
  intros Hmu Hrun. induction Hrun as [w|w wa wb p r ps xs E _ IH].
  - exists []. split; [symmetry; apply app_nil_r|]. intros c Hc. inversion Hc.
  - destruct IH as (l2 & Hl2 & Hin2).
    destruct (worker_calls_within env self _ _ _ _ _ Hmu E) as (l1 & Hl1 & Hin1).
    exists (l1 ++ l2)%list. split.
    + rewrite Hl2, Hl1, <- app_assoc. reflexivity.
    + intros c Hc. apply elem_of_app in Hc as [Hc|Hc].
      * exists p. split; [left|]. apply Hin1, Hc.
      * destruct (Hin2 c Hc) as (p' & Hp' & Hc'). exists p'. split; [right|]; assumption.
Qed.

(** X15. All that a run asks of the library is, for files of the listing: to
    open the file, to save it under its own name in the output directory with
    the options of lines 93-96, and to close it.  Nothing is saved to any
    other path or with other options. *)
Theorem library_is_asked_only_for_listed_files
    (env : Modules) (self : PDFCompressorPython) (max_workers : Z)
    (sched : list nat) (w w' : World) (s : RunSummary)
    (seen : list (Path * CompressionResult)) :
  compress_all env self max_workers sched w = (w', Ok (Completed s seen)) ->
  exists l,
    calls w' = (calls w ++ l)%list
    /\ forall c, c ∈ l ->
         c = CallClose
         \/ exists p,
              p ∈ glob_pdf (input_dir self) (fs w)
              /\ (c = CallOpen p
                  \/ c = CallSave (joinpath (output_dir self) (name p)) save_options).
Proof.
  intros H.
  pose proof (compress_all_final_world _ _ _ _ _ _ _ _ H)
    as (xs & w1 & Hrun & _ & ->).
  apply compress_all_completed_inv in H as (Hmu & _).
  destruct (tasks_run_calls_within _ _ _ _ _ _ Hmu Hrun) as (l & Hl & Hin).
  exists l. split; [exact Hl|].
  intros c Hc. destruct (Hin c Hc) as (p & Hp & Hc').
  unfold task_calls, output_file in Hc'.
  apply elem_of_cons in Hc' as [->|Hc']; [right; eauto|].
  apply elem_of_cons in Hc' as [->|Hc']; [right; eauto|].
  apply elem_of_cons in Hc' as [->|Hc']; [left; reflexivity|].
  inversion Hc'.
Qed.

Lemma library_is_asked_only_for_listed_files_witness :
  exists w' s seen,
    compress_all Sample.modules Sample.self 2 [1] Sample.start
      = (w', Ok (Completed s seen))
    /\ calls w' = [CallOpen ["papers"; "b.pdf"];
                   CallOpen ["papers"; "a.pdf"];
                   CallSave ["out"; "a.pdf"] save_options;
                   CallClose]
    /\ exists l,
         calls w' = (calls Sample.start ++ l)%list
         /\ forall c, c ∈ l ->
              c = CallClose
              \/ exists p,
                   p ∈ glob_pdf (input_dir Sample.self) (fs Sample.start)
                   /\ (c = CallOpen p
                       \/ c = CallSave (joinpath (output_dir Sample.self) (name p))
                                save_options).
Proof.
  eexists _, _, _. split; [vm_compute; reflexivity|].
  split; [reflexivity|].
  eapply (library_is_asked_only_for_listed_files
            Sample.modules Sample.self 2 [1] Sample.start).
  vm_compute. reflexivity.
Defined.
